(** * Trigger subscriptions of the Composio JS SDK

    A shallow embedding of [js/src/sdk/models/triggers.ts] (class
    [Triggers]): the event filter [shouldSendTrigger] that [subscribe]
    builds, the listener it hands to the transport, [subscribe],
    [unsubscribe], [enable], [disable], [list], [setup] and [delete].

    A JavaScript string is modelled by its UTF-8 encoding, with the case
    mappings of Unicode 14 for [toLowerCase]; values that can be
    [undefined] at run time are modelled as [jsval];
    exceptions as the [Throw] branch of [result]. *)

From Stdlib Require Import Ascii String Bool List Arith ZArith Lia.
From stdpp Require Import base option gmap strings list fin_maps.

Local Open Scope string_scope.

(** ** JavaScript values and exceptions *)

(** A value of TypeScript type [string | undefined]. *)
Inductive jsval :=
| JUndefined
| JStr (s : string).

(** Exceptions that the modelled code raises or lets through. *)
Inductive exn :=
| TypeError                               (* property access or call on undefined *)
| Error (msg : string)                    (* [new Error(msg)] *)
| Foreign (name : string) (msg : string). (* raised by a collaborator *)

Inductive result (A : Type) :=
| Ok (a : A)
| Throw (e : exn).
Arguments Ok {A} a.
Arguments Throw {A} e.

Definition rbind {A B} (r : result A) (k : A -> result B) : result B :=
  match r with
  | Ok a => k a
  | Throw e => Throw e
  end.

Declare Scope js_scope.
Delimit Scope js_scope with js.
Notation "'let!' x ':=' c 'in' k" := (rbind c (fun x => k))
  (at level 10, x name, c at level 100, k at level 200) : js_scope.

(** JavaScript truthiness of a [string | undefined]: only a non-empty
    string is truthy. *)
Definition truthy (v : jsval) : bool :=
  match v with
  | JUndefined => false
  | JStr EmptyString => false
  | JStr (String _ _) => true
  end.

(** ** Strings as UTF-8 text *)

(** A JavaScript string is modelled by its UTF-8 encoding. Decoding gives
    its code points; a byte that is not part of a well-formed sequence is
    kept, as the negative of its value. *)

Definition byte_val (c : ascii) : Z := Z.of_nat (nat_of_ascii c).

Definition byte_of (z : Z) : ascii := ascii_of_nat (Z.to_nat z).

(** A continuation byte, [10xxxxxx]. *)
Definition is_cont (c : ascii) : bool :=
  ((128 <=? byte_val c) && (byte_val c <=? 191))%Z.

Definition seq2 (b d : Z) : Z := ((b - 192) * 64 + (d - 128))%Z.

Definition seq3 (b d e : Z) : Z :=
  ((b - 224) * 4096 + (d - 128) * 64 + (e - 128))%Z.

Definition seq4 (b d e g : Z) : Z :=
  ((b - 240) * 262144 + (d - 128) * 4096 + (e - 128) * 64 + (g - 128))%Z.

Definition valid2 (b : Z) (d : ascii) : bool :=
  ((194 <=? b) && (b <=? 223))%Z && is_cont d.

Definition valid3 (b : Z) (d e : ascii) : bool :=
  ((224 <=? b) && (b <=? 239))%Z && is_cont d && is_cont e &&
  (let cp := seq3 b (byte_val d) (byte_val e) in
   (2048 <=? cp) && negb ((55296 <=? cp) && (cp <=? 57343)))%Z.

Definition valid4 (b : Z) (d e g : ascii) : bool :=
  ((240 <=? b) && (b <=? 244))%Z && is_cont d && is_cont e && is_cont g &&
  (let cp := seq4 b (byte_val d) (byte_val e) (byte_val g) in
   (65536 <=? cp) && (cp <=? 1114111))%Z.

Fixpoint decode (s : string) : list Z :=
  match s with
  | EmptyString => []
  | String c t =>
      let b := byte_val c in
      if (b <? 128)%Z then b :: decode t
      else
        match t with
        | EmptyString => [(- b)%Z]
        | String d t1 =>
            if valid2 b d then seq2 b (byte_val d) :: decode t1
            else
              match t1 with
              | EmptyString => (- b)%Z :: decode t
              | String e t2 =>
                  if valid3 b d e
                  then seq3 b (byte_val d) (byte_val e) :: decode t2
                  else
                    match t2 with
                    | EmptyString => (- b)%Z :: decode t
                    | String g t3 =>
                        if valid4 b d e g
                        then seq4 b (byte_val d) (byte_val e) (byte_val g)
                             :: decode t3
                        else (- b)%Z :: decode t
                    end
              end
        end
  end.

Definition encode (cp : Z) : string :=
  (if cp <? 0 then String (byte_of (- cp)) EmptyString
   else if cp <? 128 then String (byte_of cp) EmptyString
   else if cp <? 2048 then
     String (byte_of (192 + cp / 64))
       (String (byte_of (128 + cp mod 64)) EmptyString)
   else if cp <? 65536 then
     String (byte_of (224 + cp / 4096))
       (String (byte_of (128 + (cp / 64) mod 64))
          (String (byte_of (128 + cp mod 64)) EmptyString))
   else
     String (byte_of (240 + cp / 262144))
       (String (byte_of (128 + (cp / 4096) mod 64))
          (String (byte_of (128 + (cp / 64) mod 64))
             (String (byte_of (128 + cp mod 64)) EmptyString))))%Z.

Fixpoint encode_all (l : list Z) : string :=
  match l with
  | [] => EmptyString
  | cp :: r => encode cp ++ encode_all r
  end.

(** ** The case mappings of Unicode 14 *)

(** Runs of code points with one offset to the other case:
    [(first, last, step, offset)] says that each [first + i * step] up to
    [last] maps to itself plus [offset]. *)
Fixpoint offset_in (tbl : list (Z * Z * Z * Z)) (cp : Z) : Z :=
  match tbl with
  | [] => 0%Z
  | (lo, hi, st, d) :: r =>
      if ((lo <=? cp) && (cp <=? hi) && ((cp - lo) mod st =? 0))%Z then d
      else offset_in r cp
  end.

Fixpoint in_ranges (tbl : list (Z * Z)) (cp : Z) : bool :=
  match tbl with
  | [] => false
  | (lo, hi) :: r => ((lo <=? cp) && (cp <=? hi))%Z || in_ranges r cp
  end.

(** The lower-case mappings of single code points (UnicodeData). *)
Definition lower_table : list (Z * Z * Z * Z) :=
  [
   (65, 90, 1, 32); (192, 214, 1, 32); (216, 222, 1, 32); (256, 302, 2,
   1); (306, 310, 2, 1); (313, 327, 2, 1); (330, 374, 2, 1); (376, 376, 1,
   -121); (377, 381, 2, 1); (385, 385, 1, 210); (386, 388, 2, 1); (390,
   390, 1, 206); (391, 391, 1, 1); (393, 394, 1, 205); (395, 395, 1, 1);
   (398, 398, 1, 79); (399, 399, 1, 202); (400, 400, 1, 203); (401, 401,
   1, 1); (403, 403, 1, 205); (404, 404, 1, 207); (406, 406, 1, 211);
   (407, 407, 1, 209); (408, 408, 1, 1); (412, 412, 1, 211); (413, 413, 1,
   213); (415, 415, 1, 214); (416, 420, 2, 1); (422, 422, 1, 218); (423,
   423, 1, 1); (425, 425, 1, 218); (428, 428, 1, 1); (430, 430, 1, 218);
   (431, 431, 1, 1); (433, 434, 1, 217); (435, 437, 2, 1); (439, 439, 1,
   219); (440, 440, 1, 1); (444, 444, 1, 1); (452, 452, 1, 2); (453, 453,
   1, 1); (455, 455, 1, 2); (456, 456, 1, 1); (458, 458, 1, 2); (459, 475,
   2, 1); (478, 494, 2, 1); (497, 497, 1, 2); (498, 500, 2, 1); (502, 502,
   1, -97); (503, 503, 1, -56); (504, 542, 2, 1); (544, 544, 1, -130);
   (546, 562, 2, 1); (570, 570, 1, 10795); (571, 571, 1, 1); (573, 573, 1,
   -163); (574, 574, 1, 10792); (577, 577, 1, 1); (579, 579, 1, -195);
   (580, 580, 1, 69); (581, 581, 1, 71); (582, 590, 2, 1); (880, 882, 2,
   1); (886, 886, 1, 1); (895, 895, 1, 116); (902, 902, 1, 38); (904, 906,
   1, 37); (908, 908, 1, 64); (910, 911, 1, 63); (913, 929, 1, 32); (931,
   939, 1, 32); (975, 975, 1, 8); (984, 1006, 2, 1); (1012, 1012, 1, -60);
   (1015, 1015, 1, 1); (1017, 1017, 1, -7); (1018, 1018, 1, 1); (1021,
   1023, 1, -130); (1024, 1039, 1, 80); (1040, 1071, 1, 32); (1120, 1152,
   2, 1); (1162, 1214, 2, 1); (1216, 1216, 1, 15); (1217, 1229, 2, 1);
   (1232, 1326, 2, 1); (1329, 1366, 1, 48); (4256, 4293, 1, 7264); (4295,
   4295, 1, 7264); (4301, 4301, 1, 7264); (5024, 5103, 1, 38864); (5104,
   5109, 1, 8); (7312, 7354, 1, -3008); (7357, 7359, 1, -3008); (7680,
   7828, 2, 1); (7838, 7838, 1, -7615); (7840, 7934, 2, 1); (7944, 7951,
   1, -8); (7960, 7965, 1, -8); (7976, 7983, 1, -8); (7992, 7999, 1, -8);
   (8008, 8013, 1, -8); (8025, 8031, 2, -8); (8040, 8047, 1, -8); (8072,
   8079, 1, -8); (8088, 8095, 1, -8); (8104, 8111, 1, -8); (8120, 8121, 1,
   -8); (8122, 8123, 1, -74); (8124, 8124, 1, -9); (8136, 8139, 1, -86);
   (8140, 8140, 1, -9); (8152, 8153, 1, -8); (8154, 8155, 1, -100); (8168,
   8169, 1, -8); (8170, 8171, 1, -112); (8172, 8172, 1, -7); (8184, 8185,
   1, -128); (8186, 8187, 1, -126); (8188, 8188, 1, -9); (8486, 8486, 1,
   -7517); (8490, 8490, 1, -8383); (8491, 8491, 1, -8262); (8498, 8498, 1,
   28); (8544, 8559, 1, 16); (8579, 8579, 1, 1); (9398, 9423, 1, 26);
   (11264, 11311, 1, 48); (11360, 11360, 1, 1); (11362, 11362, 1, -10743);
   (11363, 11363, 1, -3814); (11364, 11364, 1, -10727); (11367, 11371, 2,
   1); (11373, 11373, 1, -10780); (11374, 11374, 1, -10749); (11375,
   11375, 1, -10783); (11376, 11376, 1, -10782); (11378, 11378, 1, 1);
   (11381, 11381, 1, 1); (11390, 11391, 1, -10815); (11392, 11490, 2, 1);
   (11499, 11501, 2, 1); (11506, 11506, 1, 1); (42560, 42604, 2, 1);
   (42624, 42650, 2, 1); (42786, 42798, 2, 1); (42802, 42862, 2, 1);
   (42873, 42875, 2, 1); (42877, 42877, 1, -35332); (42878, 42886, 2, 1);
   (42891, 42891, 1, 1); (42893, 42893, 1, -42280); (42896, 42898, 2, 1);
   (42902, 42920, 2, 1); (42922, 42922, 1, -42308); (42923, 42923, 1,
   -42319); (42924, 42924, 1, -42315); (42925, 42925, 1, -42305); (42926,
   42926, 1, -42308); (42928, 42928, 1, -42258); (42929, 42929, 1,
   -42282); (42930, 42930, 1, -42261); (42931, 42931, 1, 928); (42932,
   42946, 2, 1); (42948, 42948, 1, -48); (42949, 42949, 1, -42307);
   (42950, 42950, 1, -35384); (42951, 42953, 2, 1); (42960, 42960, 1, 1);
   (42966, 42968, 2, 1); (42997, 42997, 1, 1); (65313, 65338, 1, 32);
   (66560, 66599, 1, 40); (66736, 66771, 1, 40); (66928, 66938, 1, 39);
   (66940, 66954, 1, 39); (66956, 66962, 1, 39); (66964, 66965, 1, 39);
   (68736, 68786, 1, 64); (71840, 71871, 1, 32); (93760, 93791, 1, 32);
   (125184, 125217, 1, 34)
  ]%Z.

(** The upper-case mappings of single code points to single code
    points. *)
Definition upper_table : list (Z * Z * Z * Z) :=
  [
   (97, 122, 1, -32); (181, 181, 1, 743); (224, 246, 1, -32); (248, 254,
   1, -32); (255, 255, 1, 121); (257, 303, 2, -1); (305, 305, 1, -232);
   (307, 311, 2, -1); (314, 328, 2, -1); (331, 375, 2, -1); (378, 382, 2,
   -1); (383, 383, 1, -300); (384, 384, 1, 195); (387, 389, 2, -1); (392,
   392, 1, -1); (396, 396, 1, -1); (402, 402, 1, -1); (405, 405, 1, 97);
   (409, 409, 1, -1); (410, 410, 1, 163); (414, 414, 1, 130); (417, 421,
   2, -1); (424, 424, 1, -1); (429, 429, 1, -1); (432, 432, 1, -1); (436,
   438, 2, -1); (441, 441, 1, -1); (445, 445, 1, -1); (447, 447, 1, 56);
   (453, 453, 1, -1); (454, 454, 1, -2); (456, 456, 1, -1); (457, 457, 1,
   -2); (459, 459, 1, -1); (460, 460, 1, -2); (462, 476, 2, -1); (477,
   477, 1, -79); (479, 495, 2, -1); (498, 498, 1, -1); (499, 499, 1, -2);
   (501, 501, 1, -1); (505, 543, 2, -1); (547, 563, 2, -1); (572, 572, 1,
   -1); (575, 576, 1, 10815); (578, 578, 1, -1); (583, 591, 2, -1); (592,
   592, 1, 10783); (593, 593, 1, 10780); (594, 594, 1, 10782); (595, 595,
   1, -210); (596, 596, 1, -206); (598, 599, 1, -205); (601, 601, 1,
   -202); (603, 603, 1, -203); (604, 604, 1, 42319); (608, 608, 1, -205);
   (609, 609, 1, 42315); (611, 611, 1, -207); (613, 613, 1, 42280); (614,
   614, 1, 42308); (616, 616, 1, -209); (617, 617, 1, -211); (618, 618, 1,
   42308); (619, 619, 1, 10743); (620, 620, 1, 42305); (623, 623, 1,
   -211); (625, 625, 1, 10749); (626, 626, 1, -213); (629, 629, 1, -214);
   (637, 637, 1, 10727); (640, 640, 1, -218); (642, 642, 1, 42307); (643,
   643, 1, -218); (647, 647, 1, 42282); (648, 648, 1, -218); (649, 649, 1,
   -69); (650, 651, 1, -217); (652, 652, 1, -71); (658, 658, 1, -219);
   (669, 669, 1, 42261); (670, 670, 1, 42258); (837, 837, 1, 84); (881,
   883, 2, -1); (887, 887, 1, -1); (891, 893, 1, 130); (940, 940, 1, -38);
   (941, 943, 1, -37); (945, 961, 1, -32); (962, 962, 1, -31); (963, 971,
   1, -32); (972, 972, 1, -64); (973, 974, 1, -63); (976, 976, 1, -62);
   (977, 977, 1, -57); (981, 981, 1, -47); (982, 982, 1, -54); (983, 983,
   1, -8); (985, 1007, 2, -1); (1008, 1008, 1, -86); (1009, 1009, 1, -80);
   (1010, 1010, 1, 7); (1011, 1011, 1, -116); (1013, 1013, 1, -96); (1016,
   1016, 1, -1); (1019, 1019, 1, -1); (1072, 1103, 1, -32); (1104, 1119,
   1, -80); (1121, 1153, 2, -1); (1163, 1215, 2, -1); (1218, 1230, 2, -1);
   (1231, 1231, 1, -15); (1233, 1327, 2, -1); (1377, 1414, 1, -48); (4304,
   4346, 1, 3008); (4349, 4351, 1, 3008); (5112, 5117, 1, -8); (7296,
   7296, 1, -6254); (7297, 7297, 1, -6253); (7298, 7298, 1, -6244); (7299,
   7300, 1, -6242); (7301, 7301, 1, -6243); (7302, 7302, 1, -6236); (7303,
   7303, 1, -6181); (7304, 7304, 1, 35266); (7545, 7545, 1, 35332); (7549,
   7549, 1, 3814); (7566, 7566, 1, 35384); (7681, 7829, 2, -1); (7835,
   7835, 1, -59); (7841, 7935, 2, -1); (7936, 7943, 1, 8); (7952, 7957, 1,
   8); (7968, 7975, 1, 8); (7984, 7991, 1, 8); (8000, 8005, 1, 8); (8017,
   8023, 2, 8); (8032, 8039, 1, 8); (8048, 8049, 1, 74); (8050, 8053, 1,
   86); (8054, 8055, 1, 100); (8056, 8057, 1, 128); (8058, 8059, 1, 112);
   (8060, 8061, 1, 126); (8112, 8113, 1, 8); (8126, 8126, 1, -7205);
   (8144, 8145, 1, 8); (8160, 8161, 1, 8); (8165, 8165, 1, 7); (8526,
   8526, 1, -28); (8560, 8575, 1, -16); (8580, 8580, 1, -1); (9424, 9449,
   1, -26); (11312, 11359, 1, -48); (11361, 11361, 1, -1); (11365, 11365,
   1, -10795); (11366, 11366, 1, -10792); (11368, 11372, 2, -1); (11379,
   11379, 1, -1); (11382, 11382, 1, -1); (11393, 11491, 2, -1); (11500,
   11502, 2, -1); (11507, 11507, 1, -1); (11520, 11557, 1, -7264); (11559,
   11559, 1, -7264); (11565, 11565, 1, -7264); (42561, 42605, 2, -1);
   (42625, 42651, 2, -1); (42787, 42799, 2, -1); (42803, 42863, 2, -1);
   (42874, 42876, 2, -1); (42879, 42887, 2, -1); (42892, 42892, 1, -1);
   (42897, 42899, 2, -1); (42900, 42900, 1, 48); (42903, 42921, 2, -1);
   (42933, 42947, 2, -1); (42952, 42954, 2, -1); (42961, 42961, 1, -1);
   (42967, 42969, 2, -1); (42998, 42998, 1, -1); (43859, 43859, 1, -928);
   (43888, 43967, 1, -38864); (65345, 65370, 1, -32); (66600, 66639, 1,
   -40); (66776, 66811, 1, -40); (66967, 66977, 1, -39); (66979, 66993, 1,
   -39); (66995, 67001, 1, -39); (67003, 67004, 1, -39); (68800, 68850, 1,
   -64); (71872, 71903, 1, -32); (93792, 93823, 1, -32); (125218, 125251,
   1, -34)
  ]%Z.

(** The upper-case mappings to several code points (SpecialCasing). *)
Definition upper_special : list (Z * list Z) :=
  [
   (223, [83; 83]); (329, [700; 78]); (496, [74; 780]); (912, [921; 776;
   769]); (944, [933; 776; 769]); (1415, [1333; 1362]); (7830, [72; 817]);
   (7831, [84; 776]); (7832, [87; 778]); (7833, [89; 778]); (7834, [65;
   702]); (8016, [933; 787]); (8018, [933; 787; 768]); (8020, [933; 787;
   769]); (8022, [933; 787; 834]); (8064, [7944; 921]); (8065, [7945;
   921]); (8066, [7946; 921]); (8067, [7947; 921]); (8068, [7948; 921]);
   (8069, [7949; 921]); (8070, [7950; 921]); (8071, [7951; 921]); (8072,
   [7944; 921]); (8073, [7945; 921]); (8074, [7946; 921]); (8075, [7947;
   921]); (8076, [7948; 921]); (8077, [7949; 921]); (8078, [7950; 921]);
   (8079, [7951; 921]); (8080, [7976; 921]); (8081, [7977; 921]); (8082,
   [7978; 921]); (8083, [7979; 921]); (8084, [7980; 921]); (8085, [7981;
   921]); (8086, [7982; 921]); (8087, [7983; 921]); (8088, [7976; 921]);
   (8089, [7977; 921]); (8090, [7978; 921]); (8091, [7979; 921]); (8092,
   [7980; 921]); (8093, [7981; 921]); (8094, [7982; 921]); (8095, [7983;
   921]); (8096, [8040; 921]); (8097, [8041; 921]); (8098, [8042; 921]);
   (8099, [8043; 921]); (8100, [8044; 921]); (8101, [8045; 921]); (8102,
   [8046; 921]); (8103, [8047; 921]); (8104, [8040; 921]); (8105, [8041;
   921]); (8106, [8042; 921]); (8107, [8043; 921]); (8108, [8044; 921]);
   (8109, [8045; 921]); (8110, [8046; 921]); (8111, [8047; 921]); (8114,
   [8122; 921]); (8115, [913; 921]); (8116, [902; 921]); (8118, [913;
   834]); (8119, [913; 834; 921]); (8124, [913; 921]); (8130, [8138;
   921]); (8131, [919; 921]); (8132, [905; 921]); (8134, [919; 834]);
   (8135, [919; 834; 921]); (8140, [919; 921]); (8146, [921; 776; 768]);
   (8147, [921; 776; 769]); (8150, [921; 834]); (8151, [921; 776; 834]);
   (8162, [933; 776; 768]); (8163, [933; 776; 769]); (8164, [929; 787]);
   (8166, [933; 834]); (8167, [933; 776; 834]); (8178, [8186; 921]);
   (8179, [937; 921]); (8180, [911; 921]); (8182, [937; 834]); (8183,
   [937; 834; 921]); (8188, [937; 921]); (64256, [70; 70]); (64257, [70;
   73]); (64258, [70; 76]); (64259, [70; 70; 73]); (64260, [70; 70; 76]);
   (64261, [83; 84]); (64262, [83; 84]); (64275, [1348; 1350]); (64276,
   [1348; 1333]); (64277, [1348; 1339]); (64278, [1358; 1350]); (64279,
   [1348; 1341])
  ]%Z.

(** The code points that are cased and not case-ignorable. *)
Definition cased_table : list (Z * Z) :=
  [
   (65, 90); (97, 122); (170, 170); (181, 181); (186, 186); (192, 214);
   (216, 246); (248, 442); (444, 447); (452, 659); (661, 687); (880, 883);
   (886, 887); (891, 893); (895, 895); (902, 902); (904, 906); (908, 908);
   (910, 929); (931, 1013); (1015, 1153); (1162, 1327); (1329, 1366);
   (1376, 1416); (4256, 4293); (4295, 4295); (4301, 4301); (4304, 4346);
   (4349, 4351); (5024, 5109); (5112, 5117); (7296, 7304); (7312, 7354);
   (7357, 7359); (7424, 7467); (7531, 7543); (7545, 7578); (7680, 7957);
   (7960, 7965); (7968, 8005); (8008, 8013); (8016, 8023); (8025, 8025);
   (8027, 8027); (8029, 8029); (8031, 8061); (8064, 8116); (8118, 8124);
   (8126, 8126); (8130, 8132); (8134, 8140); (8144, 8147); (8150, 8155);
   (8160, 8172); (8178, 8180); (8182, 8188); (8450, 8450); (8455, 8455);
   (8458, 8467); (8469, 8469); (8473, 8477); (8484, 8484); (8486, 8486);
   (8488, 8488); (8490, 8493); (8495, 8500); (8505, 8505); (8508, 8511);
   (8517, 8521); (8526, 8526); (8544, 8575); (8579, 8580); (9398, 9449);
   (11264, 11387); (11390, 11492); (11499, 11502); (11506, 11507); (11520,
   11557); (11559, 11559); (11565, 11565); (42560, 42605); (42624, 42651);
   (42786, 42863); (42865, 42887); (42891, 42894); (42896, 42954); (42960,
   42961); (42963, 42963); (42965, 42969); (42997, 42998); (43002, 43002);
   (43824, 43866); (43872, 43880); (43888, 43967); (64256, 64262); (64275,
   64279); (65313, 65338); (65345, 65370); (66560, 66639); (66736, 66771);
   (66776, 66811); (66928, 66938); (66940, 66954); (66956, 66962); (66964,
   66965); (66967, 66977); (66979, 66993); (66995, 67001); (67003, 67004);
   (68736, 68786); (68800, 68850); (71840, 71903); (93760, 93823);
   (119808, 119892); (119894, 119964); (119966, 119967); (119970, 119970);
   (119973, 119974); (119977, 119980); (119982, 119993); (119995, 119995);
   (119997, 120003); (120005, 120069); (120071, 120074); (120077, 120084);
   (120086, 120092); (120094, 120121); (120123, 120126); (120128, 120132);
   (120134, 120134); (120138, 120144); (120146, 120485); (120488, 120512);
   (120514, 120538); (120540, 120570); (120572, 120596); (120598, 120628);
   (120630, 120654); (120656, 120686); (120688, 120712); (120714, 120744);
   (120746, 120770); (120772, 120779); (122624, 122633); (122635, 122654);
   (125184, 125251); (127280, 127305); (127312, 127337); (127344, 127369)
  ]%Z.

(** The case-ignorable code points. *)
Definition case_ignorable_table : list (Z * Z) :=
  [
   (39, 39); (46, 46); (58, 58); (94, 94); (96, 96); (168, 168); (173,
   173); (175, 175); (180, 180); (183, 184); (688, 879); (884, 885); (890,
   890); (900, 901); (903, 903); (1155, 1161); (1369, 1369); (1375, 1375);
   (1425, 1469); (1471, 1471); (1473, 1474); (1476, 1477); (1479, 1479);
   (1524, 1524); (1536, 1541); (1552, 1562); (1564, 1564); (1600, 1600);
   (1611, 1631); (1648, 1648); (1750, 1757); (1759, 1768); (1770, 1773);
   (1807, 1807); (1809, 1809); (1840, 1866); (1958, 1968); (2027, 2037);
   (2042, 2042); (2045, 2045); (2070, 2093); (2137, 2139); (2184, 2184);
   (2192, 2193); (2200, 2207); (2249, 2306); (2362, 2362); (2364, 2364);
   (2369, 2376); (2381, 2381); (2385, 2391); (2402, 2403); (2417, 2417);
   (2433, 2433); (2492, 2492); (2497, 2500); (2509, 2509); (2530, 2531);
   (2558, 2558); (2561, 2562); (2620, 2620); (2625, 2626); (2631, 2632);
   (2635, 2637); (2641, 2641); (2672, 2673); (2677, 2677); (2689, 2690);
   (2748, 2748); (2753, 2757); (2759, 2760); (2765, 2765); (2786, 2787);
   (2810, 2815); (2817, 2817); (2876, 2876); (2879, 2879); (2881, 2884);
   (2893, 2893); (2901, 2902); (2914, 2915); (2946, 2946); (3008, 3008);
   (3021, 3021); (3072, 3072); (3076, 3076); (3132, 3132); (3134, 3136);
   (3142, 3144); (3146, 3149); (3157, 3158); (3170, 3171); (3201, 3201);
   (3260, 3260); (3263, 3263); (3270, 3270); (3276, 3277); (3298, 3299);
   (3328, 3329); (3387, 3388); (3393, 3396); (3405, 3405); (3426, 3427);
   (3457, 3457); (3530, 3530); (3538, 3540); (3542, 3542); (3633, 3633);
   (3636, 3642); (3654, 3662); (3761, 3761); (3764, 3772); (3782, 3782);
   (3784, 3789); (3864, 3865); (3893, 3893); (3895, 3895); (3897, 3897);
   (3953, 3966); (3968, 3972); (3974, 3975); (3981, 3991); (3993, 4028);
   (4038, 4038); (4141, 4144); (4146, 4151); (4153, 4154); (4157, 4158);
   (4184, 4185); (4190, 4192); (4209, 4212); (4226, 4226); (4229, 4230);
   (4237, 4237); (4253, 4253); (4348, 4348); (4957, 4959); (5906, 5908);
   (5938, 5939); (5970, 5971); (6002, 6003); (6068, 6069); (6071, 6077);
   (6086, 6086); (6089, 6099); (6103, 6103); (6109, 6109); (6155, 6159);
   (6211, 6211); (6277, 6278); (6313, 6313); (6432, 6434); (6439, 6440);
   (6450, 6450); (6457, 6459); (6679, 6680); (6683, 6683); (6742, 6742);
   (6744, 6750); (6752, 6752); (6754, 6754); (6757, 6764); (6771, 6780);
   (6783, 6783); (6823, 6823); (6832, 6862); (6912, 6915); (6964, 6964);
   (6966, 6970); (6972, 6972); (6978, 6978); (7019, 7027); (7040, 7041);
   (7074, 7077); (7080, 7081); (7083, 7085); (7142, 7142); (7144, 7145);
   (7149, 7149); (7151, 7153); (7212, 7219); (7222, 7223); (7288, 7293);
   (7376, 7378); (7380, 7392); (7394, 7400); (7405, 7405); (7412, 7412);
   (7416, 7417); (7468, 7530); (7544, 7544); (7579, 7679); (8125, 8125);
   (8127, 8129); (8141, 8143); (8157, 8159); (8173, 8175); (8189, 8190);
   (8203, 8207); (8216, 8217); (8228, 8228); (8231, 8231); (8234, 8238);
   (8288, 8292); (8294, 8303); (8305, 8305); (8319, 8319); (8336, 8348);
   (8400, 8432); (11388, 11389); (11503, 11505); (11631, 11631); (11647,
   11647); (11744, 11775); (11823, 11823); (12293, 12293); (12330, 12333);
   (12337, 12341); (12347, 12347); (12441, 12446); (12540, 12542); (40981,
   40981); (42232, 42237); (42508, 42508); (42607, 42610); (42612, 42621);
   (42623, 42623); (42652, 42655); (42736, 42737); (42752, 42785); (42864,
   42864); (42888, 42890); (42994, 42996); (43000, 43001); (43010, 43010);
   (43014, 43014); (43019, 43019); (43045, 43046); (43052, 43052); (43204,
   43205); (43232, 43249); (43263, 43263); (43302, 43309); (43335, 43345);
   (43392, 43394); (43443, 43443); (43446, 43449); (43452, 43453); (43471,
   43471); (43493, 43494); (43561, 43566); (43569, 43570); (43573, 43574);
   (43587, 43587); (43596, 43596); (43632, 43632); (43644, 43644); (43696,
   43696); (43698, 43700); (43703, 43704); (43710, 43711); (43713, 43713);
   (43741, 43741); (43756, 43757); (43763, 43764); (43766, 43766); (43867,
   43871); (43881, 43883); (44005, 44005); (44008, 44008); (44013, 44013);
   (64286, 64286); (64434, 64450); (65024, 65039); (65043, 65043); (65056,
   65071); (65106, 65106); (65109, 65109); (65279, 65279); (65287, 65287);
   (65294, 65294); (65306, 65306); (65342, 65342); (65344, 65344); (65392,
   65392); (65438, 65439); (65507, 65507); (65529, 65531); (66045, 66045);
   (66272, 66272); (66422, 66426); (67456, 67461); (67463, 67504); (67506,
   67514); (68097, 68099); (68101, 68102); (68108, 68111); (68152, 68154);
   (68159, 68159); (68325, 68326); (68900, 68903); (69291, 69292); (69446,
   69456); (69506, 69509); (69633, 69633); (69688, 69702); (69744, 69744);
   (69747, 69748); (69759, 69761); (69811, 69814); (69817, 69818); (69821,
   69821); (69826, 69826); (69837, 69837); (69888, 69890); (69927, 69931);
   (69933, 69940); (70003, 70003); (70016, 70017); (70070, 70078); (70089,
   70092); (70095, 70095); (70191, 70193); (70196, 70196); (70198, 70199);
   (70206, 70206); (70367, 70367); (70371, 70378); (70400, 70401); (70459,
   70460); (70464, 70464); (70502, 70508); (70512, 70516); (70712, 70719);
   (70722, 70724); (70726, 70726); (70750, 70750); (70835, 70840); (70842,
   70842); (70847, 70848); (70850, 70851); (71090, 71093); (71100, 71101);
   (71103, 71104); (71132, 71133); (71219, 71226); (71229, 71229); (71231,
   71232); (71339, 71339); (71341, 71341); (71344, 71349); (71351, 71351);
   (71453, 71455); (71458, 71461); (71463, 71467); (71727, 71735); (71737,
   71738); (71995, 71996); (71998, 71998); (72003, 72003); (72148, 72151);
   (72154, 72155); (72160, 72160); (72193, 72202); (72243, 72248); (72251,
   72254); (72263, 72263); (72273, 72278); (72281, 72283); (72330, 72342);
   (72344, 72345); (72752, 72758); (72760, 72765); (72767, 72767); (72850,
   72871); (72874, 72880); (72882, 72883); (72885, 72886); (73009, 73014);
   (73018, 73018); (73020, 73021); (73023, 73029); (73031, 73031); (73104,
   73105); (73109, 73109); (73111, 73111); (73459, 73460); (78896, 78904);
   (92912, 92916); (92976, 92982); (92992, 92995); (94031, 94031); (94095,
   94111); (94176, 94177); (94179, 94180); (110576, 110579); (110581,
   110587); (110589, 110590); (113821, 113822); (113824, 113827); (118528,
   118573); (118576, 118598); (119143, 119145); (119155, 119170); (119173,
   119179); (119210, 119213); (119362, 119364); (121344, 121398); (121403,
   121452); (121461, 121461); (121476, 121476); (121499, 121503); (121505,
   121519); (122880, 122886); (122888, 122904); (122907, 122913); (122915,
   122916); (122918, 122922); (123184, 123197); (123566, 123566); (123628,
   123631); (125136, 125142); (125252, 125259); (127995, 127999); (917505,
   917505); (917536, 917631); (917760, 917999)
  ]%Z.

Definition cased_letter (cp : Z) : bool := in_ranges cased_table cp.

Definition case_ignorable (cp : Z) : bool := in_ranges case_ignorable_table cp.

(** Lower case of one code point, out of context: U+0130 gives two code
    points, every other one gives one. *)
Definition lower_cp (cp : Z) : list Z :=
  if (cp =? 304)%Z then [105; 775]%Z
  else [(cp + offset_in lower_table cp)%Z].

Definition upper_cp (cp : Z) : list Z :=
  match List.find (fun e => (fst e =? cp)%Z) upper_special with
  | Some e => snd e
  | None => [(cp + offset_in upper_table cp)%Z]
  end.

(** What follows is case-ignorable code points and then a cased
    letter. *)
Fixpoint followed_by_cased (l : list Z) : bool :=
  match l with
  | [] => false
  | cp :: r => if case_ignorable cp then followed_by_cased r
               else cased_letter cp
  end.

(** Lower case of a text. [after_cased] says that a cased letter and then
    only case-ignorable code points come before. A capital sigma (U+03A3)
    in that position which no cased letter follows is a final sigma. *)
Fixpoint lower_all (after_cased : bool) (l : list Z) : list Z :=
  match l with
  | [] => []
  | cp :: r =>
      ((if (cp =? 931)%Z
        then (if after_cased && negb (followed_by_cased r)
              then [962%Z] else [963%Z])
        else lower_cp cp)
       ++ lower_all (if case_ignorable cp then after_cased
                     else cased_letter cp) r)%list
  end.

(** [String.prototype.toLowerCase] *)
Definition toLowerCase (s : string) : string :=
  encode_all (lower_all false (decode s)).

(** [String.prototype.toUpperCase] *)
Definition toUpperCase (s : string) : string :=
  encode_all (List.concat (List.map upper_cp (decode s))).

Arguments toLowerCase : simpl never.
Arguments toUpperCase : simpl never.

(** *** The letters A-Z and a-z *)

Definition is_upper (c : ascii) : bool :=
  let n := nat_of_ascii c in ((65 <=? n) && (n <=? 90))%nat.

Definition is_lower (c : ascii) : bool :=
  let n := nat_of_ascii c in ((97 <=? n) && (n <=? 122))%nat.

Definition lower_ascii (c : ascii) : ascii :=
  if is_upper c then ascii_of_nat (nat_of_ascii c + 32) else c.

Definition swap_case (c : ascii) : ascii :=
  if is_upper c then ascii_of_nat (nat_of_ascii c + 32)
  else if is_lower c then ascii_of_nat (nat_of_ascii c - 32)
  else c.

(** The text with its letters A-Z turned into a-z and nothing else
    changed. *)
Fixpoint fold_ascii (s : string) : string :=
  match s with
  | EmptyString => EmptyString
  | String c s' => String (lower_ascii c) (fold_ascii s')
  end.

(** The same on a code point. *)
Definition fold_cp (cp : Z) : Z :=
  if ((65 <=? cp) && (cp <=? 90))%Z then (cp + 32)%Z else cp.

(** [v.toLowerCase()]: a [TypeError] when [v] is [undefined]. *)
Definition call_toLowerCase (v : jsval) : result string :=
  match v with
  | JUndefined => Throw TypeError
  | JStr s => Ok (toLowerCase s)
  end.

(** [s'] is [s] with the case of some of its letters A-Z, a-z changed. *)
Fixpoint case_variant (s s' : string) : bool :=
  match s, s' with
  | EmptyString, EmptyString => true
  | String c t, String c' t' =>
      (Ascii.eqb c' c || Ascii.eqb c' (swap_case c)) && case_variant t t'
  | _, _ => false
  end.

(** ** Events and filters *)

(** [TriggerData] as it arrives from the transport. The TypeScript type
    declares every attribute below as required; at run time the payload
    is parsed JSON, so each of them may be missing. *)
Record TriggerConnection := {
  clientUniqueUserId : jsval;
  integrationId : jsval
}.

Record TriggerMetadata := {
  id_ : jsval;            (* [metadata.id] *)
  connectionId : jsval;
  triggerName : jsval;
  connection : option TriggerConnection
}.

Record TriggerData := {
  appName : jsval;
  metadata : option TriggerMetadata
}.

(** A JavaScript object with string-or-undefined properties: the filter
    argument of [subscribe] ([TTriggerSubscribeParam]) and the raw
    argument of [enable]/[disable]. A key may be present with value
    [undefined]. *)
Abbreviation jsobject := (gmap string jsval).

(** [Object.keys(o)]; only its length is used, so the order of the keys
    does not matter. *)
Definition Object_keys (o : jsobject) : list string := (map_to_list o).*1.

(** [o.k]: [undefined] when the key is not there. *)
Definition get (o : jsobject) (k : string) : jsval :=
  default JUndefined (o !! k).

(** [x.p] where [x] may be undefined. *)
Definition prop {A B} (x : option A) (p : A -> B) : result B :=
  match x with
  | None => Throw TypeError
  | Some a => Ok (p a)
  end.

Local Open Scope js_scope.

(** [a.toLowerCase() === b.toLowerCase()], left operand first. *)
Definition lower_eq (a : result jsval) (b : jsval) : result bool :=
  let! va := a in
  let! la := call_toLowerCase va in
  let! lb := call_toLowerCase b in
  Ok (String.eqb la lb).

(** [!f || c] with short-circuit evaluation. *)
Definition unset_or (f : jsval) (c : result bool) : result bool :=
  if negb (truthy f) then Ok true else c.

(** [a && b] on booleans, with short-circuit evaluation. *)
Definition and_then (a b : result bool) : result bool :=
  let! x := a in if x then b else Ok false.

Infix "&&&" := and_then (at level 40, left associativity) : js_scope.

(** triggers.ts, lines 208-231. *)
Definition shouldSendTrigger (filters : jsobject) (data : TriggerData)
  : result bool :=
  if (length (Object_keys filters) =? 0)%nat then Ok true
  else
    unset_or (get filters "appName")
      (lower_eq (Ok (appName data)) (get filters "appName"))
    &&&
    unset_or (get filters "triggerId")
      (lower_eq (prop (metadata data) id_) (get filters "triggerId"))
    &&&
    unset_or (get filters "connectionId")
      (lower_eq (prop (metadata data) connectionId)
                (get filters "connectionId"))
    &&&
    unset_or (get filters "triggerName")
      (lower_eq (prop (metadata data) triggerName)
                (get filters "triggerName"))
    &&&
    unset_or (get filters "entityId")
      (lower_eq (let! c := prop (metadata data) connection in
                 prop c clientUniqueUserId)
                (get filters "entityId"))
    &&&
    unset_or (get filters "integrationId")
      (lower_eq (let! c := prop (metadata data) connection in
                 prop c integrationId)
                (get filters "integrationId")).

(** *** The six criteria, for stating properties *)

Inductive criterion :=
| AppName | TriggerId | ConnectionId | TriggerName | EntityId | IntegrationId.

#[global] Instance criterion_eq_dec : EqDecision criterion.
Proof. solve_decision. Defined.

Definition criteria : list criterion :=
  [AppName; TriggerId; ConnectionId; TriggerName; EntityId; IntegrationId].

Definition filter_key (k : criterion) : string :=
  match k with
  | AppName => "appName"
  | TriggerId => "triggerId"
  | ConnectionId => "connectionId"
  | TriggerName => "triggerName"
  | EntityId => "entityId"
  | IntegrationId => "integrationId"
  end.

(** The event attribute a criterion is compared with, read the way the
    source reads it. *)
Definition event_attr (k : criterion) (data : TriggerData) : result jsval :=
  match k with
  | AppName => Ok (appName data)
  | TriggerId => prop (metadata data) id_
  | ConnectionId => prop (metadata data) connectionId
  | TriggerName => prop (metadata data) triggerName
  | EntityId =>
      let! c := prop (metadata data) connection in prop c clientUniqueUserId
  | IntegrationId =>
      let! c := prop (metadata data) connection in prop c integrationId
  end.

(** ** The world around the class *)

(** The subscriber's callback [fn: (data: TriggerData) => void]: it may
    return or throw. The name identifies it in the trace. *)
Record Callback := {
  cb_name : string;
  cb_body : TriggerData -> result unit
}.

(** The arrow function of lines 234-238, as the values it closes over. *)
Record Listener := {
  l_filters : jsobject;
  l_fn : Callback
}.

(** What the class does to its collaborators, in the order it happens. *)
Inductive effect :=
| Telemetry (method : string)
| GetClientId
| GetPusherClient
| LoggerDebug (msg : string)
| SwitchTriggerInstanceStatus (triggerId : string) (enabled : bool)
| Invoke (cb : string) (data : TriggerData).

Record World := {
  listeners : gmap string Listener;   (* one slot per client identity *)
  trace : list effect
}.

(** [z.infer<typeof ZTriggerInstanceItems>] *)
Record TTriggerInstanceItems := {
  triggerInstanceId : string
}.

(** The collaborators whose code is outside the class. *)
Record Env := {
  backendClient_getClientId : result string;
  PusherUtils_getPusherClient : result unit;
  ZTriggerInstanceItems_parse : jsobject -> result TTriggerInstanceItems;
  apiClient_switchTriggerInstanceStatus : string -> bool -> result unit;
  CEG_handleAllError : exn -> result exn
}.

(** Computations that change the world and may throw; what was done
    before a throw stays done. *)
Definition M (A : Type) : Type := World -> result A * World.

Definition ret {A} (a : A) : M A := fun w => (Ok a, w).

Definition throw {A} (e : exn) : M A := fun w => (Throw e, w).

Definition bind {A B} (c : M A) (k : A -> M B) : M B :=
  fun w =>
    match c w with
    | (Ok a, w') => k a w'
    | (Throw e, w') => (Throw e, w')
    end.

Notation "'do!' x ':=' c 'in' k" := (bind c (fun x => k))
  (at level 10, x name, c at level 100, k at level 200) : js_scope.

Definition lift {A} (r : result A) : M A := fun w => (r, w).

(** [try { c } catch (error) { h error }] *)
Definition try_catch {A} (c : M A) (h : exn -> M A) : M A :=
  fun w =>
    match c w with
    | (Ok a, w') => (Ok a, w')
    | (Throw e, w') => h e w'
    end.

Definition emit (ev : effect) : M unit :=
  fun w => (Ok tt, {| listeners := listeners w; trace := trace w ++ [ev] |}).

(** A call to a collaborator: recorded, then its outcome. *)
Definition call {A} (ev : effect) (r : result A) : M A :=
  do! _ := emit ev in lift r.

(** [throw CEG.handleAllError(error)]: whatever the handler returns is
    thrown, and so is whatever it throws itself. *)
Definition throw_handled {A} (env : Env) (error : exn) : M A :=
  match CEG_handleAllError env error with
  | Ok e => throw e
  | Throw e => throw e
  end.

(** Modelled from the spec: [PusherUtils.triggerSubscribe] of
    sdk/utils/pusher.ts, which is not part of the sources at hand. The
    spec's [register] stores or replaces the single active subscription
    of the client identity. *)
Definition triggerSubscribe (clientId : string) (l : Listener) : M unit :=
  fun w => (Ok tt, {| listeners := <[clientId := l]> (listeners w);
                      trace := trace w |}).

(** Modelled from the spec: [PusherUtils.triggerUnsubscribe] of
    sdk/utils/pusher.ts, which is not part of the sources at hand. The
    spec's [clear] removes the active subscription. *)
Definition triggerUnsubscribe (clientId : string) : M unit :=
  fun w => (Ok tt, {| listeners := delete clientId (listeners w);
                      trace := trace w |}).

(** ** The class [Triggers] *)

(** Lines 234-238: [(data) => { if (shouldSendTrigger(data)) fn(data); }] *)
Definition listener (filters : jsobject) (fn : Callback) (data : TriggerData)
  : M unit :=
  do! send := lift (shouldSendTrigger filters data) in
  if send then call (Invoke (cb_name fn) data) (cb_body fn data)
  else ret tt.

Definition run_listener (l : Listener) : TriggerData -> M unit :=
  listener (l_filters l) (l_fn l).

(** Lines 190-239. [fn] is [None] for a null or undefined callback;
    [filters] is [None] when the argument is left out, and then takes the
    default [{}]. *)
Definition subscribe (env : Env) (fn : option Callback)
    (filters : option jsobject) : M unit :=
  let filters := default ∅ filters in
  do! _ := emit (Telemetry "subscribe") in
  match fn with
  | None => throw (Error "Function is required for trigger subscription")
  | Some fn =>
      do! clientId := call GetClientId (backendClient_getClientId env) in
      do! _ := call GetPusherClient (PusherUtils_getPusherClient env) in
      do! _ := emit (LoggerDebug "Subscribing to triggers") in
      triggerSubscribe clientId {| l_filters := filters; l_fn := fn |}
  end.

(** Lines 241-244. *)
Definition unsubscribe (env : Env) : M unit :=
  do! clientId := call GetClientId (backendClient_getClientId env) in
  triggerUnsubscribe clientId.

(** The body shared by [enable] (lines 111-131) and [disable] (lines
    140-160); they differ in the method name reported and in the flag. *)
Definition switch_status (env : Env) (method : string) (enabled : bool)
    (data : jsobject) : M bool :=
  do! _ := emit (Telemetry method) in
  try_catch
    (do! parsedData := lift (ZTriggerInstanceItems_parse env data) in
     do! _ := call (SwitchTriggerInstanceStatus
                      (triggerInstanceId parsedData) enabled)
                   (apiClient_switchTriggerInstanceStatus env
                      (triggerInstanceId parsedData) enabled) in
     ret true)
    (fun error => throw_handled env error).

Definition enable (env : Env) (data : jsobject) : M bool :=
  switch_status env "enable" true data.

Definition disable (env : Env) (data : jsobject) : M bool :=
  switch_status env "disable" false data.

(** Modelled from the spec: the transport delivering an event on the
    channel of a client identity (sdk/utils/pusher.ts and the transport
    library, not part of the sources at hand). The spec's [dispatch] looks
    up the active subscription; if there is none it does nothing,
    otherwise the registered listener runs. What the transport does with
    an exception that leaves the listener is not modelled: the outcome of
    the listener is handed back. *)
Definition deliver (clientId : string) (data : TriggerData) : M unit :=
  fun w =>
    match listeners w !! clientId with
    | None => (Ok tt, w)
    | Some l => run_listener l data w
    end.

(** What [throw CEG.handleAllError(error)] ends up throwing. *)
Definition rethrown (env : Env) (error : exn) : exn :=
  match CEG_handleAllError env error with
  | Ok e => e
  | Throw e => e
  end.

(** The callbacks invoked so far, oldest first. *)
Definition invocations (w : World) : list (string * TriggerData) :=
  omap (fun ev => match ev with
                  | Invoke cb data => Some (cb, data)
                  | _ => None
                  end) (trace w).

(** ** Vocabulary for the properties *)

(** One conjunct of [shouldSendTrigger]:
    [!filters.k || attr.toLowerCase() === filters.k.toLowerCase()]. *)
Definition step (k : criterion) (f : jsobject) (e : TriggerData)
  : result bool :=
  unset_or (get f (filter_key k))
    (lower_eq (event_attr k e) (get f (filter_key k))).

(** The conjuncts of a list of criteria, left to right, stopping at the
    first that is false or throws. *)
Fixpoint all_steps (ks : list criterion) (f : jsobject) (e : TriggerData)
  : result bool :=
  match ks with
  | [] => Ok true
  | k :: ks' => step k f e &&& all_steps ks' f e
  end.

(** The filter constrains criterion [k]: the field holds a non-empty
    string. *)
Definition constrained (f : jsobject) (k : criterion) : bool :=
  truthy (get f (filter_key k)).

(** The event carries the attribute of criterion [k] as a string. *)
Definition attr_present (k : criterion) (e : TriggerData) : bool :=
  match event_attr k e with
  | Ok (JStr _) => true
  | _ => false
  end.

(** The filter field and the event attribute of [k] are both strings and
    equal up to letter case. *)
Definition attr_matches (k : criterion) (f : jsobject) (e : TriggerData)
  : bool :=
  match event_attr k e, get f (filter_key k) with
  | Ok (JStr a), JStr s => String.eqb (toLowerCase a) (toLowerCase s)
  | _, _ => false
  end.

(** What one conjunct decides: no constraint on [k], or a match. *)
Definition comparison (k : criterion) (f : jsobject) (e : TriggerData)
  : bool :=
  negb (constrained f k) || attr_matches k f e.

(** The event carries the attribute of every criterion the filter
    constrains. *)
Definition covers (f : jsobject) (e : TriggerData) : bool :=
  forallb (fun k => implb (constrained f k) (attr_present k e)) criteria.

(** Position of a criterion in the conjunction. *)
Definition rank (k : criterion) : nat :=
  match k with
  | AppName => 0
  | TriggerId => 1
  | ConnectionId => 2
  | TriggerName => 3
  | EntityId => 4
  | IntegrationId => 5
  end.

(** The comparison as the specification words it: the field is absent
    from the filter, or present and equal to the event attribute up to
    letter case (a missing attribute does not match). *)
Definition spec_comparison (k : criterion) (f : jsobject) (e : TriggerData)
  : bool :=
  match get f (filter_key k) with
  | JUndefined => true
  | JStr s =>
      match event_attr k e with
      | Ok (JStr a) => String.eqb (toLowerCase a) (toLowerCase s)
      | _ => false
      end
  end.

(** [matches(filter, event)] as the specification words it. *)
Definition spec_matches (f : jsobject) (e : TriggerData) : bool :=
  forallb (fun k => spec_comparison k f e) criteria.

(** The event with the attribute of criterion [k] replaced by [v]; the
    objects on the way to the attribute are left as they are. *)
Definition set_event_attr (k : criterion) (v : jsval) (e : TriggerData)
  : TriggerData :=
  let on_metadata (g : TriggerMetadata -> TriggerMetadata) :=
    {| appName := appName e; metadata := g <$> metadata e |} in
  let on_connection (g : TriggerConnection -> TriggerConnection) :=
    on_metadata (fun m =>
      {| id_ := id_ m; connectionId := connectionId m;
         triggerName := triggerName m;
         connection := g <$> connection m |}) in
  match k with
  | AppName => {| appName := v; metadata := metadata e |}
  | TriggerId =>
      on_metadata (fun m =>
        {| id_ := v; connectionId := connectionId m;
           triggerName := triggerName m; connection := connection m |})
  | ConnectionId =>
      on_metadata (fun m =>
        {| id_ := id_ m; connectionId := v;
           triggerName := triggerName m; connection := connection m |})
  | TriggerName =>
      on_metadata (fun m =>
        {| id_ := id_ m; connectionId := connectionId m;
           triggerName := v; connection := connection m |})
  | EntityId =>
      on_connection (fun c =>
        {| clientUniqueUserId := v; integrationId := integrationId c |})
  | IntegrationId =>
      on_connection (fun c =>
        {| clientUniqueUserId := clientUniqueUserId c; integrationId := v |})
  end.

(** ** Sample inputs *)

Definition sample_connection : TriggerConnection :=
  {| clientUniqueUserId := JStr "default"; integrationId := JStr "int-42" |}.

(** A complete event from GitHub. *)
Definition github_event : TriggerData :=
  {| appName := JStr "github";
     metadata := Some {| id_ := JStr "abc";
                         connectionId := JStr "conn-7";
                         triggerName := JStr "GITHUB_COMMIT_EVENT";
                         connection := Some sample_connection |} |}.

(** The same event without its [metadata.connection] object. *)
Definition github_event_no_connection : TriggerData :=
  {| appName := JStr "github";
     metadata := Some {| id_ := JStr "abc";
                         connectionId := JStr "conn-7";
                         triggerName := JStr "GITHUB_COMMIT_EVENT";
                         connection := None |} |}.

(** An event with no [metadata] at all. *)
Definition bare_event : TriggerData :=
  {| appName := JStr "github"; metadata := None |}.

(** [{appName: "GitHub"}] *)
Definition filter_GitHub : jsobject := {[ "appName" := JStr "GitHub" ]}.

(** [{appName: "straße"}] *)
Definition filter_strasse : jsobject := {[ "appName" := JStr "straße" ]}.

(** An event of the app "straße". *)
Definition strasse_event : TriggerData :=
  {| appName := JStr "straße"; metadata := None |}.

(** [{appName: "GitHub", triggerId: "xyz"}] *)
Definition filter_app_and_trigger : jsobject :=
  <[ "appName" := JStr "GitHub" ]> {[ "triggerId" := JStr "xyz" ]}.

(** [{appName: "", triggerId: "abc"}] *)
Definition filter_blank_app : jsobject :=
  <[ "appName" := JStr "" ]> {[ "triggerId" := JStr "abc" ]}.

(** [{appName: "github", entityId: "default"}] *)
Definition filter_app_and_entity : jsobject :=
  <[ "appName" := JStr "github" ]> {[ "entityId" := JStr "default" ]}.

(** [{entityId: "default"}] *)
Definition filter_entity : jsobject := {[ "entityId" := JStr "default" ]}.

(** [{appName: "", entityId: undefined}] *)
Definition filter_all_falsy : jsobject :=
  <[ "appName" := JStr "" ]> {[ "entityId" := JUndefined ]}.

Definition world0 : World := {| listeners := ∅; trace := [] |}.

(** A subscriber whose callback always throws. *)
Definition failing_callback : Callback :=
  {| cb_name := "failing";
     cb_body := fun _ => Throw (Error "subscriber failed") |}.

(** A subscriber whose callback returns normally. *)
Definition quiet_callback : Callback :=
  {| cb_name := "quiet"; cb_body := fun _ => Ok tt |}.

(** Collaborators that all succeed; the schema accepts an object whose
    [triggerInstanceId] is a non-empty string. *)
Definition sample_env : Env :=
  {| backendClient_getClientId := Ok "client-1";
     PusherUtils_getPusherClient := Ok tt;
     ZTriggerInstanceItems_parse := fun o =>
       match get o "triggerInstanceId" with
       | JStr (String c s) => Ok {| triggerInstanceId := String c s |}
       | _ => Throw (Foreign "ZodError" "triggerInstanceId")
       end;
     apiClient_switchTriggerInstanceStatus := fun _ _ => Ok tt;
     CEG_handleAllError := fun x => Ok x |}.

(** The same, with a transport that cannot be initialised. *)
Definition env_no_transport : Env :=
  {| backendClient_getClientId := backendClient_getClientId sample_env;
     PusherUtils_getPusherClient :=
       Throw (Foreign "TransportUnavailable" "missing credentials");
     ZTriggerInstanceItems_parse := ZTriggerInstanceItems_parse sample_env;
     apiClient_switchTriggerInstanceStatus :=
       apiClient_switchTriggerInstanceStatus sample_env;
     CEG_handleAllError := CEG_handleAllError sample_env |}.

(** The world after a subscription with [filter_GitHub] and then one
    with [filter_app_and_trigger], both for the identity of
    [sample_env]. *)
Definition two_subscriptions : World :=
  (subscribe sample_env (Some quiet_callback) (Some filter_app_and_trigger)
     (subscribe sample_env (Some failing_callback) (Some filter_GitHub)
        world0).2).2.

(** [{triggerInstanceId: "ti-1"}] *)
Definition sample_instance : jsobject :=
  {[ "triggerInstanceId" := JStr "ti-1" ]}.

(** ** [list], [setup] and [delete] *)

(** [Array.prototype.join(sep)] on an array of strings. *)
Fixpoint join (sep : string) (l : list string) : string :=
  match l with
  | [] => ""
  | x :: rest =>
      match rest with
      | [] => x
      | _ :: _ => x ++ sep ++ join sep rest
      end
  end.

(** [a?.join(",")]: [undefined] when the array is. *)
Definition optional_join (a : option (list string)) : jsval :=
  match a with
  | None => JUndefined
  | Some l => JStr (join "," l)
  end.

(** [z.infer<typeof ZTriggerQuery>], the fields that [list] reads. *)
Record TTriggerListParam := {
  appNames : option (list string);
  triggerIds : option (list string);
  connectedAccountIds : option (list string);
  integrationIds : option (list string);
  showEnabledOnly : option bool
}.

(** The [query] object that [list] sends (lines 58-64); the fields carry
    the names of [TTriggerListParam] in the source. *)
Record ListTriggersQuery := {
  q_appNames : jsval;
  q_triggerIds : jsval;
  q_connectedAccountIds : jsval;
  q_integrationIds : jsval;
  q_showEnabledOnly : option bool
}.

(** Lines 58-64. *)
Definition list_query (parsed : TTriggerListParam) : ListTriggersQuery :=
  {| q_appNames := optional_join (appNames parsed);
     q_triggerIds := optional_join (triggerIds parsed);
     q_connectedAccountIds := optional_join (connectedAccountIds parsed);
     q_integrationIds := optional_join (integrationIds parsed);
     q_showEnabledOnly := showEnabledOnly parsed |}.

(** The default [{}] of the parameter of [list]. *)
Definition no_list_param : TTriggerListParam :=
  {| appNames := None; triggerIds := None; connectedAccountIds := None;
     integrationIds := None; showEnabledOnly := None |}.

(** [{ status: string; triggerId: string }], what [setup] returns. *)
Record TSetupResult := {
  setup_status : string;
  setup_triggerId : string
}.

(** [{ status: "success" }], what [delete] returns. *)
Record TDeleteResult := {
  status : string
}.

(** The characters of [s] hold no [c]. *)
Fixpoint free_of (c : ascii) (s : string) : bool :=
  match s with
  | EmptyString => true
  | String a t => negb (Ascii.eqb a c) && free_of c t
  end.

(** [s.split(c)] for a one-character separator: the reading of a joined
    query on the other side. *)
Fixpoint split_on (c : ascii) (s : string) : list string :=
  match s with
  | EmptyString => [EmptyString]
  | String a t =>
      if Ascii.eqb a c then EmptyString :: split_on c t
      else match split_on c t with
           | [] => [String a EmptyString]
           | x :: r => String a x :: r
           end
  end.

Section Facade.

(** A trigger descriptor as the API returns it, and the configuration
    payload of a trigger; the class passes both on unopened. *)
Variable Descriptor : Type.
Variable Config : Type.

(** [z.infer<typeof ZTriggerSetupParam>]; the fields are
    [connectedAccountId], [triggerName] and [config] in the source. *)
Record TTriggerSetupParam := {
  sp_connectedAccountId : string;
  sp_triggerName : string;
  sp_config : Config
}.

(** The schemas and API calls of [list], [setup] and [delete]. An API
    call yields the [data] field of its response, which may be
    missing. *)
Record Api := {
  ZTriggerQuery_parse : TTriggerListParam -> result TTriggerListParam;
  ZTriggerSetupParam_parse : TTriggerSetupParam -> result TTriggerSetupParam;
  apiClient_listTriggers :
    ListTriggersQuery -> result (option (list Descriptor));
  apiClient_enableTrigger :
    string -> string -> Config -> result (option TSetupResult);
  apiClient_deleteTrigger : string -> result unit
}.

(** The requests of these three methods, as sent. *)
Inductive request :=
| ListTriggers (query : ListTriggersQuery)
| EnableTrigger (connectedAccountId : string) (triggerName : string)
    (triggerConfig : Config)
| DeleteTrigger (triggerInstanceId : string).

(** The world together with the requests sent so far, oldest first. *)
Record Session := {
  world : World;
  requests : list request
}.

Definition R (A : Type) : Type := Session -> result A * Session.

Definition s_ret {A} (a : A) : R A := fun s => (Ok a, s).

Definition s_bind {A B} (c : R A) (k : A -> R B) : R B :=
  fun s =>
    match c s with
    | (Ok a, s') => k a s'
    | (Throw e, s') => (Throw e, s')
    end.

Definition s_lift {A} (r : result A) : R A := fun s => (r, s).

(** A computation on the world alone. *)
Definition s_world {A} (c : M A) : R A :=
  fun s =>
    let (r, w) := c (world s) in
    (r, {| world := w; requests := requests s |}).

(** An API call: the request is recorded, then comes its outcome. *)
Definition s_send {A} (q : request) (r : result A) : R A :=
  fun s => (r, {| world := world s; requests := requests s ++ [q] |}).

Definition s_try_catch {A} (c : R A) (h : exn -> R A) : R A :=
  fun s =>
    match c s with
    | (Ok a, s') => (Ok a, s')
    | (Throw e, s') => h e s'
    end.

Notation "'run!' x ':=' c 'in' k" := (s_bind c (fun x => k))
  (at level 10, x name, c at level 100, k at level 200) : js_scope.

(** Lines 43-70. [data] is [None] when the argument is left out. *)
Definition list_ (env : Env) (api : Api) (data : option TTriggerListParam)
  : R (list Descriptor) :=
  let data := default no_list_param data in
  run! _ := s_world (emit (Telemetry "list")) in
  s_try_catch
    (run! parsed := s_lift (ZTriggerQuery_parse api data) in
     run! response := s_send (ListTriggers (list_query parsed))
                        (apiClient_listTriggers api (list_query parsed)) in
     s_ret (default [] response))
    (fun error => s_world (throw_handled env error)).

(** Lines 79-102. *)
Definition setup (env : Env) (api : Api) (params : TTriggerSetupParam)
  : R (option TSetupResult) :=
  run! _ := s_world (emit (Telemetry "setup")) in
  s_try_catch
    (run! parsedData := s_lift (ZTriggerSetupParam_parse api params) in
     run! response :=
       s_send (EnableTrigger (sp_connectedAccountId parsedData)
                 (sp_triggerName parsedData) (sp_config parsedData))
              (apiClient_enableTrigger api
                 (sp_connectedAccountId parsedData)
                 (sp_triggerName parsedData) (sp_config parsedData)) in
     s_ret response)
    (fun error => s_world (throw_handled env error)).

(** Lines 168-188. *)
Definition delete_ (env : Env) (api : Api) (data : jsobject)
  : R TDeleteResult :=
  run! _ := s_world (emit (Telemetry "delete")) in
  s_try_catch
    (run! parsedData := s_lift (ZTriggerInstanceItems_parse env data) in
     run! _ := s_send (DeleteTrigger (triggerInstanceId parsedData))
                 (apiClient_deleteTrigger api
                    (triggerInstanceId parsedData)) in
     s_ret {| status := "success" |})
    (fun error => s_world (throw_handled env error)).

End Facade.

Arguments sp_connectedAccountId {Config} _.
Arguments sp_triggerName {Config} _.
Arguments sp_config {Config} _.
Arguments ZTriggerQuery_parse {Descriptor Config} _ _.
Arguments ZTriggerSetupParam_parse {Descriptor Config} _ _.
Arguments apiClient_listTriggers {Descriptor Config} _ _.
Arguments apiClient_enableTrigger {Descriptor Config} _ _ _ _.
Arguments apiClient_deleteTrigger {Descriptor Config} _ _.
Arguments ListTriggers {Config} query.
Arguments EnableTrigger {Config} connectedAccountId triggerName triggerConfig.
Arguments DeleteTrigger {Config} triggerInstanceId.
Arguments world {Config} _.
Arguments requests {Config} _.
Arguments s_ret {Config A} a _.
Arguments s_bind {Config A B} c k _.
Arguments s_lift {Config A} r _.
Arguments s_world {Config A} c _.
Arguments s_send {Config A} q r _.
Arguments s_try_catch {Config A} c h _.
Arguments list_ {Descriptor Config} env api data _.
Arguments setup {Descriptor Config} env api params _.
Arguments delete_ {Descriptor Config} env api data _.

(** ** More vocabulary *)

(** The session after the telemetry call of [method]. *)
Definition told {Config} (method : string) (s : Session Config)
  : Session Config :=
  {| world := {| listeners := listeners (world s);
                 trace := trace (world s) ++ [Telemetry method] |};
     requests := requests s |}.

(** The session after the telemetry call of [method] and one request. *)
Definition sent {Config} (method : string) (q : request Config)
    (s : Session Config) : Session Config :=
  {| world := {| listeners := listeners (world s);
                 trace := trace (world s) ++ [Telemetry method] |};
     requests := requests s ++ [q] |}.

(** A multi-valued filter of [list] that survives the joining: absent,
    or a non-empty array of identifiers without a comma. *)
Definition comma_safe (a : option (list string)) : bool :=
  match a with
  | None => true
  | Some l =>
      match l with
      | [] => false
      | _ :: _ => forallb (free_of ",") l
      end
  end.

(** A registry API that accepts every query and returns no data, takes a
    setup only for a named connected account, and acknowledges every
    deletion. Descriptors are stood for by their names. *)
Definition sample_api : Api string jsobject :=
  {| ZTriggerQuery_parse := fun q => Ok q;
     ZTriggerSetupParam_parse := fun p =>
       match sp_connectedAccountId p with
       | EmptyString => Throw (Foreign "ZodError" "connectedAccountId")
       | String _ _ => Ok p
       end;
     apiClient_listTriggers := fun _ => Ok None;
     apiClient_enableTrigger := fun _ _ _ =>
       Ok (Some {| setup_status := "success"; setup_triggerId := "ti-1" |});
     apiClient_deleteTrigger := fun _ => Ok tt |}.

Definition session0 : Session jsobject :=
  {| world := world0; requests := [] |}.

(** [{appNames: ["github", "slack"], showEnabledOnly: true}] *)
Definition sample_list_param : TTriggerListParam :=
  {| appNames := Some ["github"; "slack"]; triggerIds := None;
     connectedAccountIds := None; integrationIds := None;
     showEnabledOnly := Some true |}.

(** [{connectedAccountId: "ca-1", triggerName: "GITHUB_COMMIT_EVENT",
    config: {}}] *)
Definition sample_setup_param : TTriggerSetupParam jsobject :=
  {| sp_connectedAccountId := "ca-1";
     sp_triggerName := "GITHUB_COMMIT_EVENT";
     sp_config := ∅ |}.

(** The effect is a status-switch request. *)
Definition is_switch (ev : effect) : bool :=
  match ev with
  | SwitchTriggerInstanceStatus _ _ => true
  | _ => false
  end.

(** Collaborators whose backend client cannot resolve the identity. *)
Definition env_no_identity : Env :=
  {| backendClient_getClientId := Throw (Foreign "HTTP" "401");
     PusherUtils_getPusherClient := PusherUtils_getPusherClient sample_env;
     ZTriggerInstanceItems_parse := ZTriggerInstanceItems_parse sample_env;
     apiClient_switchTriggerInstanceStatus :=
       apiClient_switchTriggerInstanceStatus sample_env;
     CEG_handleAllError := CEG_handleAllError sample_env |}.

(** The event carries all six attributes as strings, as the type
    [TriggerData] declares. *)
Definition well_typed (e : TriggerData) : bool :=
  forallb (fun k => attr_present k e) criteria.

(** What a filter demands for criterion [k]: its non-empty string, or
    nothing. *)
Definition constraint_of (f : jsobject) (k : criterion) : jsval :=
  if constrained f k then get f (filter_key k) else JUndefined.

(** ** Letter case *)

Lemma lower_ascii_swap_case (c : ascii) :
  lower_ascii (swap_case c) = lower_ascii c.
Proof. destruct c as [[] [] [] [] [] [] [] []]; reflexivity. Qed.

Lemma case_variant_fold (s s' : string) :
  case_variant s s' = true -> fold_ascii s' = fold_ascii s.
Proof.
  revert s'. induction s as [|c t IH]; intros [|c' t']; simpl; try discriminate.
  - reflexivity.
  - intros H. apply andb_prop in H as [Hc Ht].
    rewrite (IH _ Ht). f_equal.
    apply orb_prop in Hc as [Hc|Hc]; apply Ascii.eqb_eq in Hc; subst c'.
    + reflexivity.
    + apply lower_ascii_swap_case.
Qed.

(** *** Bytes and the letters A-Z *)

Lemma lower_ascii_byte (c : ascii) :
  byte_val (lower_ascii c) = fold_cp (byte_val c).
Proof. destruct c as [[] [] [] [] [] [] [] []]; reflexivity. Qed.

Lemma lower_ascii_high (c : ascii) :
  (byte_val c <? 128)%Z = false -> lower_ascii c = c.
Proof.
  destruct c as [[] [] [] [] [] [] [] []]; vm_compute; intros H;
    (reflexivity || discriminate H).
Qed.

Lemma is_cont_high (d : ascii) :
  is_cont d = true -> (byte_val d <? 128)%Z = false.
Proof.
  unfold is_cont. intros H. apply andb_prop in H as [H _].
  apply Z.leb_le in H. apply Z.ltb_ge. lia.
Qed.

Lemma is_cont_fixed (d : ascii) : is_cont d = true -> lower_ascii d = d.
Proof. intros H. by apply lower_ascii_high, is_cont_high. Qed.

Lemma is_cont_lower (d : ascii) : is_cont (lower_ascii d) = is_cont d.
Proof.
  unfold is_cont. rewrite lower_ascii_byte. unfold fold_cp.
  destruct ((65 <=? byte_val d) && (byte_val d <=? 90))%Z eqn:H; [|reflexivity].
  apply andb_prop in H as [H1 H2]. apply Z.leb_le in H1, H2.
  assert (H3 : (128 <=? byte_val d + 32)%Z = false) by (apply Z.leb_gt; lia).
  assert (H4 : (128 <=? byte_val d)%Z = false) by (apply Z.leb_gt; lia).
  by rewrite H3, H4.
Qed.

Lemma fold_cp_low (b : Z) :
  (b <? 128)%Z = true -> (fold_cp b <? 128)%Z = true.
Proof.
  unfold fold_cp. intros H. apply Z.ltb_lt in H.
  destruct ((65 <=? b) && (b <=? 90))%Z eqn:Hb; apply Z.ltb_lt; [|lia].
  apply andb_prop in Hb as [_ H2]. apply Z.leb_le in H2. lia.
Qed.

Lemma fold_cp_outside (cp : Z) :
  (cp < 65 \/ 90 < cp)%Z -> fold_cp cp = cp.
Proof.
  intros H. unfold fold_cp.
  destruct ((65 <=? cp) && (cp <=? 90))%Z eqn:Hb; [|reflexivity].
  apply andb_prop in Hb as [H1 H2]. apply Z.leb_le in H1, H2. lia.
Qed.

Lemma valid2_fold (b : Z) (d : ascii) :
  valid2 b (lower_ascii d) = valid2 b d.
Proof. unfold valid2. by rewrite is_cont_lower. Qed.

Lemma valid3_fold (b : Z) (d e : ascii) :
  valid3 b (lower_ascii d) (lower_ascii e) = valid3 b d e.
Proof.
  unfold valid3. rewrite !is_cont_lower.
  destruct (is_cont d) eqn:Hd; [|by rewrite !andb_false_r].
  destruct (is_cont e) eqn:He; [|by rewrite !andb_false_r].
  by rewrite (is_cont_fixed d Hd), (is_cont_fixed e He).
Qed.

Lemma valid4_fold (b : Z) (d e g : ascii) :
  valid4 b (lower_ascii d) (lower_ascii e) (lower_ascii g) = valid4 b d e g.
Proof.
  unfold valid4. rewrite !is_cont_lower.
  destruct (is_cont d) eqn:Hd; [|by rewrite !andb_false_r].
  destruct (is_cont e) eqn:He; [|by rewrite !andb_false_r].
  destruct (is_cont g) eqn:Hg; [|by rewrite !andb_false_r].
  by rewrite (is_cont_fixed d Hd), (is_cont_fixed e He), (is_cont_fixed g Hg).
Qed.

Lemma valid2_spec (b : Z) (d : ascii) :
  valid2 b d = true ->
  lower_ascii d = d /\ fold_cp (seq2 b (byte_val d)) = seq2 b (byte_val d).
Proof.
  unfold valid2. intros H. apply andb_prop in H as [Hb Hd].
  split; [by apply is_cont_fixed|].
  apply andb_prop in Hb as [Hb _]. apply Z.leb_le in Hb.
  unfold is_cont in Hd. apply andb_prop in Hd as [Hd _]. apply Z.leb_le in Hd.
  apply fold_cp_outside. unfold seq2. lia.
Qed.

Lemma valid3_spec (b : Z) (d e : ascii) :
  valid3 b d e = true ->
  lower_ascii d = d /\ lower_ascii e = e /\
  fold_cp (seq3 b (byte_val d) (byte_val e)) = seq3 b (byte_val d) (byte_val e).
Proof.
  unfold valid3. intros H.
  apply andb_prop in H as [H Hcp]. apply andb_prop in H as [H He].
  apply andb_prop in H as [_ Hd].
  split; [by apply is_cont_fixed|]. split; [by apply is_cont_fixed|].
  simpl in Hcp. apply andb_prop in Hcp as [Hcp _]. apply Z.leb_le in Hcp.
  apply fold_cp_outside. lia.
Qed.

Lemma valid4_spec (b : Z) (d e g : ascii) :
  valid4 b d e g = true ->
  lower_ascii d = d /\ lower_ascii e = e /\ lower_ascii g = g /\
  fold_cp (seq4 b (byte_val d) (byte_val e) (byte_val g))
    = seq4 b (byte_val d) (byte_val e) (byte_val g).
Proof.
  unfold valid4. intros H.
  apply andb_prop in H as [H Hcp]. apply andb_prop in H as [H Hg].
  apply andb_prop in H as [H He]. apply andb_prop in H as [_ Hd].
  repeat (split; [by apply is_cont_fixed|]).
  simpl in Hcp. apply andb_prop in Hcp as [Hcp _]. apply Z.leb_le in Hcp.
  apply fold_cp_outside. lia.
Qed.

(** One step of [decode], with the calls on the rest left folded. *)
Lemma decode_cons (c : ascii) (t : string) :
  decode (String c t) =
    let b := byte_val c in
    if (b <? 128)%Z then b :: decode t
    else
      match t with
      | EmptyString => [(- b)%Z]
      | String d t1 =>
          if valid2 b d then seq2 b (byte_val d) :: decode t1
          else
            match t1 with
            | EmptyString => (- b)%Z :: decode t
            | String e t2 =>
                if valid3 b d e
                then seq3 b (byte_val d) (byte_val e) :: decode t2
                else
                  match t2 with
                  | EmptyString => (- b)%Z :: decode t
                  | String g t3 =>
                      if valid4 b d e g
                      then seq4 b (byte_val d) (byte_val e) (byte_val g)
                           :: decode t3
                      else (- b)%Z :: decode t
                  end
            end
      end.
Proof. destruct t as [|d [|e [|g t3]]]; reflexivity. Qed.

Lemma decode_fold_bounded (n : nat) (s : string) :
  String.length s <= n ->
  decode (fold_ascii s) = List.map fold_cp (decode s).
Proof.
  revert s. induction n as [|n IH]; intros [|c t] Hlen; simpl in Hlen;
    try reflexivity; try lia.
  assert (IHt : forall u, String.length u <= String.length t ->
                          decode (fold_ascii u) = List.map fold_cp (decode u))
    by (intros u Hu; apply IH; lia).
  change (fold_ascii (String c t)) with (String (lower_ascii c) (fold_ascii t)).
  rewrite !decode_cons. cbv zeta. rewrite lower_ascii_byte.
  destruct (byte_val c <? 128)%Z eqn:Hb.
  - rewrite (fold_cp_low _ Hb). simpl. f_equal. by apply IHt.
  - assert (Hneg : fold_cp (- byte_val c) = (- byte_val c)%Z)
      by (apply Z.ltb_ge in Hb; apply fold_cp_outside; lia).
    assert (Hsame : fold_cp (byte_val c) = byte_val c)
      by (apply Z.ltb_ge in Hb; apply fold_cp_outside; lia).
    rewrite Hsame, Hb.
    assert (Hstray : (- byte_val c)%Z :: decode (fold_ascii t)
                     = List.map fold_cp ((- byte_val c)%Z :: decode t))
      by (simpl; rewrite Hneg; f_equal; by apply IHt).
    destruct t as [|d t1]; [by simpl; rewrite Hneg|].
    change (fold_ascii (String d t1))
      with (String (lower_ascii d) (fold_ascii t1)) in *.
    cbv beta iota.
    rewrite valid2_fold. destruct (valid2 (byte_val c) d) eqn:H2.
    { destruct (valid2_spec _ _ H2) as [Hd Hcp]. rewrite Hd. simpl.
      rewrite Hcp. f_equal. apply IHt. simpl. lia. }
    destruct t1 as [|e t2]; [exact Hstray|].
    change (fold_ascii (String e t2))
      with (String (lower_ascii e) (fold_ascii t2)) in *.
    cbv beta iota.
    rewrite valid3_fold. destruct (valid3 (byte_val c) d e) eqn:H3.
    { destruct (valid3_spec _ _ _ H3) as (Hd & He & Hcp). rewrite Hd, He.
      simpl. rewrite Hcp. f_equal. apply IHt. simpl. lia. }
    destruct t2 as [|g t3]; [exact Hstray|].
    change (fold_ascii (String g t3))
      with (String (lower_ascii g) (fold_ascii t3)) in *.
    cbv beta iota.
    rewrite valid4_fold. destruct (valid4 (byte_val c) d e g) eqn:H4.
    { destruct (valid4_spec _ _ _ _ H4) as (Hd & He & Hg & Hcp).
      rewrite Hd, He, Hg. simpl. rewrite Hcp. f_equal. apply IHt. simpl. lia. }
    exact Hstray.
Qed.

Lemma decode_fold (s : string) :
  decode (fold_ascii s) = List.map fold_cp (decode s).
Proof. by apply (decode_fold_bounded (String.length s)). Qed.

(** The letters A-Z and a-z have the same lower case, and are alike for
    the final-sigma rule. *)
Lemma fold_cp_same (c : Z) :
  lower_cp (fold_cp c) = lower_cp c /\
  case_ignorable (fold_cp c) = case_ignorable c /\
  cased_letter (fold_cp c) = cased_letter c /\
  (fold_cp c =? 931)%Z = (c =? 931)%Z.
Proof.
  unfold fold_cp.
  destruct ((65 <=? c) && (c <=? 90))%Z eqn:H; [|done].
  apply andb_prop in H as [H1 H2]. apply Z.leb_le in H1, H2.
  assert (Hc : (c = 65 \/ c = 66 \/ c = 67 \/ c = 68 \/ c = 69 \/ c = 70 \/ c = 71 \/ c = 72 \/ c = 73 \/ c = 74 \/ c = 75 \/ c = 76 \/ c = 77 \/ c = 78 \/ c = 79 \/ c = 80 \/ c = 81 \/ c = 82 \/ c = 83 \/ c = 84 \/ c = 85 \/ c = 86 \/ c = 87 \/ c = 88 \/ c = 89 \/ c = 90)%Z) by lia.
  repeat (destruct Hc as [Hc|Hc]; [subst c; vm_compute; done|]).
  subst c. vm_compute. done.
Qed.

Lemma followed_by_cased_fold (l : list Z) :
  followed_by_cased (List.map fold_cp l) = followed_by_cased l.
Proof.
  induction l as [|c r IH]; simpl; [reflexivity|].
  destruct (fold_cp_same c) as (_ & Hi & Hc & _). by rewrite Hi, Hc, IH.
Qed.

Lemma lower_all_fold (l : list Z) (b : bool) :
  lower_all b (List.map fold_cp l) = lower_all b l.
Proof.
  revert b. induction l as [|c r IH]; intros b; simpl; [reflexivity|].
  destruct (fold_cp_same c) as (Hl & Hi & Hc & Hs).
  by rewrite Hl, Hi, Hc, Hs, followed_by_cased_fold, IH.
Qed.

Lemma toLowerCase_fold (s : string) :
  toLowerCase (fold_ascii s) = toLowerCase s.
Proof. unfold toLowerCase. by rewrite decode_fold, lower_all_fold. Qed.

(** Changing the case of letters A-Z, a-z keeps the lower-case form. *)
Lemma case_variant_lower (s s' : string) :
  case_variant s s' = true -> toLowerCase s' = toLowerCase s.
Proof.
  intros H. rewrite <- (toLowerCase_fold s'), <- (toLowerCase_fold s).
  by rewrite (case_variant_fold s s' H).
Qed.

(** *** Only the empty string has an empty lower-case form *)

Lemma decode_nil (s : string) : decode s = [] -> s = EmptyString.
Proof.
  destruct s as [|c t]; [reflexivity|]. rewrite decode_cons. cbv zeta.
  destruct (byte_val c <? 128)%Z; [discriminate|].
  destruct t as [|d t1]; [discriminate|].
  destruct (valid2 _ _); [discriminate|].
  destruct t1 as [|e t2]; [discriminate|].
  destruct (valid3 _ _ _); [discriminate|].
  destruct t2 as [|g t3]; [discriminate|].
  destruct (valid4 _ _ _ _); discriminate.
Qed.

Lemma lower_all_nil (b : bool) (l : list Z) : lower_all b l = [] -> l = [].
Proof.
  destruct l as [|c r]; [reflexivity|]. simpl. unfold lower_cp.
  destruct (c =? 931)%Z; [destruct (b && _)|destruct (c =? 304)%Z];
    discriminate.
Qed.

Lemma encode_all_nil (l : list Z) : encode_all l = EmptyString -> l = [].
Proof.
  destruct l as [|c r]; [reflexivity|]. simpl. unfold encode.
  repeat (destruct (_ <? _)%Z); discriminate.
Qed.

Lemma toLowerCase_nil (s : string) :
  toLowerCase s = EmptyString -> s = EmptyString.
Proof.
  unfold toLowerCase. intros H.
  by apply decode_nil, (lower_all_nil false), encode_all_nil.
Qed.

Lemma same_lower_truthy (s s' : string) :
  toLowerCase s' = toLowerCase s -> truthy (JStr s') = truthy (JStr s).
Proof.
  intros H. destruct s as [|c t], s' as [|c' t']; try reflexivity.
  - change (toLowerCase EmptyString) with EmptyString in H.
    apply toLowerCase_nil in H. discriminate.
  - symmetry in H. change (toLowerCase EmptyString) with EmptyString in H.
    apply toLowerCase_nil in H. discriminate.
Qed.

(** ** The conjunction, one conjunct at a time *)

Lemma Object_keys_empty (f : jsobject) :
  (length (Object_keys f) =? 0)%nat = true <-> f = ∅.
Proof.
  unfold Object_keys. rewrite length_fmap, Nat.eqb_eq.
  rewrite length_zero_iff_nil. apply map_to_list_empty_iff.
Qed.

Lemma Object_keys_nonempty (f : jsobject) :
  f ≠ ∅ -> (length (Object_keys f) =? 0)%nat = false.
Proof.
  intros Hf. apply not_true_is_false. intros H.
  apply Hf. by apply Object_keys_empty.
Qed.

Lemma and_then_assoc (a b c : result bool) :
  (a &&& b) &&& c = a &&& (b &&& c).
Proof. destruct a as [[]|]; reflexivity. Qed.

Lemma and_then_true_r (a : result bool) : a &&& Ok true = a.
Proof. destruct a as [[]|]; reflexivity. Qed.

Lemma shouldSendTrigger_steps (f : jsobject) (e : TriggerData) :
  f ≠ ∅ -> shouldSendTrigger f e = all_steps criteria f e.
Proof.
  intros Hf. unfold shouldSendTrigger.
  rewrite (Object_keys_nonempty f Hf). simpl.
  rewrite and_then_true_r, !and_then_assoc. reflexivity.
Qed.

Lemma constrained_nonempty (f : jsobject) (k : criterion) :
  constrained f k = true -> f ≠ ∅.
Proof.
  unfold constrained, get. intros H ->. rewrite lookup_empty in H.
  discriminate.
Qed.

(** A conjunct yields a boolean or a [TypeError], nothing else. *)
Lemma step_outcome (k : criterion) (f : jsobject) (e : TriggerData) :
  step k f e = Ok (comparison k f e) \/
  (step k f e = Throw TypeError /\
   constrained f k = true /\ attr_present k e = false).
Proof.
  unfold step, comparison, constrained, attr_present, attr_matches,
    unset_or, lower_eq.
  destruct (get f (filter_key k)) as [|[|c s]]; simpl; auto.
  destruct (event_attr k e) as [[|a]|x] eqn:Ha; simpl; auto.
  right. split; [|auto]. f_equal.
  destruct k; simpl in Ha; unfold prop in Ha;
    repeat match type of Ha with
           | context [match ?o with _ => _ end] => destruct o; simpl in Ha
           end; congruence.
Qed.

Lemma step_true_iff (k : criterion) (f : jsobject) (e : TriggerData) :
  step k f e = Ok true <-> comparison k f e = true.
Proof.
  destruct (step_outcome k f e) as [H|(H & Hc & Hp)]; rewrite H.
  - split; congruence.
  - split; [discriminate|].
    unfold comparison, attr_matches. rewrite Hc. simpl.
    unfold attr_present in Hp.
    destruct (event_attr k e) as [[|a]|x]; congruence.
Qed.

Lemma step_covered (k : criterion) (f : jsobject) (e : TriggerData) :
  implb (constrained f k) (attr_present k e) = true ->
  step k f e = Ok (comparison k f e).
Proof.
  intros H. destruct (step_outcome k f e) as [?|(_ & Hc & Hp)]; [done|].
  rewrite Hc, Hp in H. discriminate.
Qed.

Lemma all_steps_true_iff (ks : list criterion) (f : jsobject)
    (e : TriggerData) :
  all_steps ks f e = Ok true <-> forall k, In k ks -> comparison k f e = true.
Proof.
  induction ks as [|k ks IH]; simpl.
  - split; [intros _ ? []|reflexivity].
  - split.
    + intros H k' [<-|Hin].
      * apply step_true_iff. destruct (step k f e) as [[]|]; simpl in H; congruence.
      * apply IH; [|done]. destruct (step k f e) as [[]|]; simpl in H; congruence.
    + intros H. assert (Hk : step k f e = Ok true) by (apply step_true_iff; auto).
      rewrite Hk. simpl. apply IH. auto.
Qed.

Lemma all_steps_covered (ks : list criterion) (f : jsobject)
    (e : TriggerData) :
  forallb (fun k => implb (constrained f k) (attr_present k e)) ks = true ->
  all_steps ks f e = Ok (forallb (fun k => comparison k f e) ks).
Proof.
  induction ks as [|k ks IH]; simpl; [reflexivity|].
  intros H. apply andb_prop in H as [Hk Hks].
  rewrite (step_covered _ _ _ Hk), (IH Hks).
  destruct (comparison k f e); reflexivity.
Qed.

Lemma all_steps_outcome (ks : list criterion) (f : jsobject)
    (e : TriggerData) :
  (exists b, all_steps ks f e = Ok b) \/ all_steps ks f e = Throw TypeError.
Proof.
  induction ks as [|k ks IH]; simpl; [eauto|].
  destruct (step_outcome k f e) as [H|(H & _)]; rewrite H; simpl; [|auto].
  destruct (comparison k f e); eauto.
Qed.

Lemma In_criteria (k : criterion) : In k criteria.
Proof. destruct k; simpl; auto 10. Qed.

Lemma shouldSendTrigger_true_iff (f : jsobject) (e : TriggerData) :
  shouldSendTrigger f e = Ok true <-> forall k, comparison k f e = true.
Proof.
  destruct (decide (f = ∅)) as [->|Hf].
  - split; [|reflexivity]. intros _ k.
    unfold comparison, constrained, get. by rewrite lookup_empty.
  - rewrite (shouldSendTrigger_steps f e Hf), all_steps_true_iff.
    split; [intros H k; apply H, In_criteria|auto].
Qed.

Lemma event_attr_throw (k : criterion) (e : TriggerData) (x : exn) :
  event_attr k e = Throw x -> x = TypeError.
Proof.
  destruct e as [a [[i c t [co|]]|]], k; simpl; congruence.
Qed.

Lemma step_missing (k : criterion) (f : jsobject) (e : TriggerData) :
  constrained f k = true -> attr_present k e = false ->
  step k f e = Throw TypeError.
Proof.
  intros Hc Hp.
  destruct (step_outcome k f e) as [H|(H & _)]; [|done].
  exfalso. revert H Hc Hp.
  unfold step, constrained, attr_present, unset_or, lower_eq.
  destruct (get f (filter_key k)) as [|[|c s]]; simpl; try discriminate.
  destruct (event_attr k e) as [[|a]|x]; simpl; discriminate.
Qed.

Lemma all_steps_ext (ks : list criterion) (f f' : jsobject)
    (e e' : TriggerData) :
  (forall k, step k f' e' = step k f e) ->
  all_steps ks f' e' = all_steps ks f e.
Proof.
  intros H. induction ks as [|k ks IH]; simpl; [reflexivity|].
  by rewrite H, IH.
Qed.

Lemma filter_key_inj (k k' : criterion) :
  filter_key k = filter_key k' -> k = k'.
Proof. destruct k, k'; simpl; intros H; try reflexivity; discriminate H. Qed.

Lemma event_attr_set_same (k : criterion) (e : TriggerData) (v v' : jsval) :
  event_attr k e = Ok v -> event_attr k (set_event_attr k v' e) = Ok v'.
Proof.
  destruct e as [a [[i c t [co|]]|]], k; simpl; congruence.
Qed.

Lemma event_attr_set_other (k k' : criterion) (e : TriggerData) (v : jsval) :
  k' <> k -> event_attr k' (set_event_attr k v e) = event_attr k' e.
Proof.
  intros Hne.
  destruct e as [a [[i c t [co|]]|]], k, k'; simpl; congruence.
Qed.

Lemma shouldSendTrigger_empty (e : TriggerData) :
  shouldSendTrigger ∅ e = Ok true.
Proof.
  unfold shouldSendTrigger.
  assert (H : (length (Object_keys (∅ : jsobject)) =? 0)%nat = true)
    by (by apply Object_keys_empty).
  rewrite H. reflexivity.
Qed.

(** ** The filter evaluator *)

(** C1, amended. For a filter with at least one constrained field (a
    field holding a non-empty string) and any event: [shouldSendTrigger]
    returns true exactly when all six comparisons hold, a comparison
    holding iff the filter field is absent, undefined or the empty
    string, or the event carries the attribute and it equals the field up
    to letter case. When the event carries the attribute of every
    constrained field, the result is the conjunction of the six
    comparisons; in particular it is false as soon as one constrained
    field differs from the attribute of the event. *)
Theorem C1_shouldSendTrigger_conjunction (f : jsobject) (e : TriggerData) :
  (exists k, constrained f k = true) ->
  (shouldSendTrigger f e = Ok true <-> forall k, comparison k f e = true) /\
  (covers f e = true ->
   shouldSendTrigger f e = Ok (forallb (fun k => comparison k f e) criteria) /\
   ((exists k, constrained f k = true /\ attr_matches k f e = false) ->
    shouldSendTrigger f e = Ok false)).
Proof.
  intros [k0 Hk0]. split; [apply shouldSendTrigger_true_iff|].
  intros Hcov.
  assert (Hres : shouldSendTrigger f e =
                 Ok (forallb (fun k => comparison k f e) criteria)).
  { rewrite (shouldSendTrigger_steps f e (constrained_nonempty f k0 Hk0)).
    by apply all_steps_covered. }
  split; [exact Hres|].
  intros (k & Hc & Hm). rewrite Hres. f_equal.
  apply not_true_is_false. intros Hall.
  rewrite forallb_forall in Hall. specialize (Hall k (In_criteria k)).
  unfold comparison in Hall. rewrite Hc, Hm in Hall. discriminate.
Qed.

Lemma C1_witness :
  shouldSendTrigger filter_app_and_trigger github_event = Ok false.
Proof.
  apply (C1_shouldSendTrigger_conjunction filter_app_and_trigger github_event).
  - exists AppName. vm_compute. reflexivity.
  - vm_compute. reflexivity.
  - exists TriggerId. split; vm_compute; reflexivity.
Defined.

(** C1 as worded fails twice over. The filter
    [{appName: "", triggerId: "abc"}] has a field that is present and
    differs from the attribute of the event, yet the event passes; and
    the filter [{appName: "github", entityId: "default"}] on an event
    without [metadata.connection] yields no boolean at all. *)
Lemma C1_counterexample :
  (constrained filter_blank_app TriggerId = true /\
   filter_blank_app !! "appName" = Some (JStr "") /\
   appName github_event = JStr "github" /\
   spec_matches filter_blank_app github_event = false /\
   shouldSendTrigger filter_blank_app github_event = Ok true /\
   shouldSendTrigger filter_blank_app github_event
     <> Ok (spec_matches filter_blank_app github_event)) /\
  (constrained filter_app_and_entity EntityId = true /\
   spec_matches filter_app_and_entity github_event_no_connection = false /\
   shouldSendTrigger filter_app_and_entity github_event_no_connection
     = Throw TypeError /\
   shouldSendTrigger filter_app_and_entity github_event_no_connection
     <> Ok (spec_matches filter_app_and_entity github_event_no_connection)).
Proof. vm_compute. repeat split; discriminate. Qed.

(** C2, amended. When a filter constrains a field whose attribute the
    event does not carry (such as [entityId] or [integrationId] on an
    event without [metadata.connection]), [shouldSendTrigger] never
    returns true: it returns false or raises a [TypeError], and it raises
    the [TypeError] whenever every comparison placed before that field
    holds. *)
Theorem C2_missing_attribute_never_matches (f : jsobject) (e : TriggerData)
    (k : criterion) :
  constrained f k = true -> attr_present k e = false ->
  shouldSendTrigger f e <> Ok true /\
  (shouldSendTrigger f e = Ok false \/
   shouldSendTrigger f e = Throw TypeError) /\
  ((forall k', rank k' < rank k -> comparison k' f e = true) ->
   shouldSendTrigger f e = Throw TypeError).
Proof.
  intros Hc Hp.
  pose proof (constrained_nonempty f k Hc) as Hf.
  pose proof (step_missing k f e Hc Hp) as Hstep.
  assert (Hnot : shouldSendTrigger f e <> Ok true).
  { intros H. apply shouldSendTrigger_true_iff with (k := k) in H.
    apply step_true_iff in H. congruence. }
  split; [exact Hnot|]. split.
  - rewrite (shouldSendTrigger_steps f e Hf) in *.
    destruct (all_steps_outcome criteria f e) as [[[] H]|H]; auto.
    congruence.
  - intros Hbefore. rewrite (shouldSendTrigger_steps f e Hf).
    assert (Hpre : forall k', rank k' < rank k -> step k' f e = Ok true).
    { intros k' Hlt. apply step_true_iff. auto. }
    destruct k; simpl;
      repeat (rewrite Hpre by (simpl; lia); simpl);
      rewrite Hstep; reflexivity.
Qed.

Lemma C2_witness :
  shouldSendTrigger filter_entity github_event_no_connection
    = Throw TypeError.
Proof.
  apply (C2_missing_attribute_never_matches
           filter_entity github_event_no_connection EntityId).
  - vm_compute. reflexivity.
  - vm_compute. reflexivity.
  - intros []; simpl; intros H; try lia; vm_compute; reflexivity.
Defined.

(** C2 as worded fails: with [entityId] constrained and no
    [metadata.connection] in the event, reading
    [data.metadata.connection.clientUniqueUserId] raises a [TypeError]
    instead of giving false. *)
Lemma C2_counterexample :
  constrained filter_entity EntityId = true /\
  (exists m, metadata github_event_no_connection = Some m /\
             connection m = None) /\
  shouldSendTrigger filter_entity github_event_no_connection
    = Throw TypeError /\
  shouldSendTrigger filter_entity github_event_no_connection <> Ok false.
Proof.
  split; [vm_compute; reflexivity|].
  split; [eexists; split; reflexivity|].
  split; [vm_compute; reflexivity|].
  vm_compute. discriminate.
Qed.

(** C3. With the empty filter object [{}], [shouldSendTrigger] returns
    true for every event, including events that lack nested
    attributes. *)
Theorem C3_empty_filter_matches_every_event (e : TriggerData) :
  shouldSendTrigger ∅ e = Ok true.
Proof. apply shouldSendTrigger_empty. Qed.

(** C10. A filter object that has at least one key but none of whose six
    fields holds a non-empty string (each is absent, [undefined] or the
    empty string) lets every event through: the empty string counts as no
    constraint. *)
Theorem C10_falsy_fields_are_no_constraint (f : jsobject) (e : TriggerData) :
  f ≠ ∅ -> (forall k, constrained f k = false) ->
  shouldSendTrigger f e = Ok true.
Proof.
  intros _ H. apply shouldSendTrigger_true_iff. intros k.
  unfold comparison. by rewrite H.
Qed.

Lemma C10_witness :
  shouldSendTrigger filter_all_falsy bare_event = Ok true.
Proof.
  apply (C10_falsy_fields_are_no_constraint filter_all_falsy bare_event).
  - intros H. apply (f_equal (fun m => m !! "appName")) in H.
    vm_compute in H. discriminate.
  - intros []; vm_compute; reflexivity.
Defined.

Lemma step_insert_case (k k' : criterion) (f : jsobject) (e : TriggerData)
    (s s' : string) :
  f !! filter_key k = Some (JStr s) -> toLowerCase s' = toLowerCase s ->
  step k' (<[filter_key k := JStr s']> f) e = step k' f e.
Proof.
  intros Hs Hv. unfold step, get.
  destruct (decide (k' = k)) as [->|Hne].
  - rewrite lookup_insert_eq, Hs. simpl.
    unfold unset_or. rewrite (same_lower_truthy s s' Hv).
    unfold lower_eq. simpl. by rewrite Hv.
  - rewrite lookup_insert_ne; [reflexivity|].
    intros Heq. apply Hne. symmetry. by apply filter_key_inj.
Qed.

Lemma step_set_case (k k' : criterion) (f : jsobject) (e : TriggerData)
    (a a' : string) :
  event_attr k e = Ok (JStr a) -> toLowerCase a' = toLowerCase a ->
  step k' f (set_event_attr k (JStr a') e) = step k' f e.
Proof.
  intros Ha Hv. unfold step.
  destruct (decide (k' = k)) as [->|Hne].
  - rewrite (event_attr_set_same k e _ (JStr a') Ha), Ha.
    unfold lower_eq. simpl. by rewrite Hv.
  - by rewrite event_attr_set_other.
Qed.

(** C4, amended. Replacing the value of one filter field, or one
    attribute of the event, by a text with the same lower-case form does
    not change what [shouldSendTrigger] yields; every change of the case
    of letters A-Z and a-z is such a replacement; and when every
    constrained field equals the attribute of the event up to the
    lower-case form, it returns true. *)
Theorem C4_case_insensitivity :
  (forall (f : jsobject) (e : TriggerData) (k : criterion) (s s' : string),
     f !! filter_key k = Some (JStr s) -> toLowerCase s' = toLowerCase s ->
     shouldSendTrigger (<[filter_key k := JStr s']> f) e
       = shouldSendTrigger f e) /\
  (forall (f : jsobject) (e : TriggerData) (k : criterion) (a a' : string),
     event_attr k e = Ok (JStr a) -> toLowerCase a' = toLowerCase a ->
     shouldSendTrigger f (set_event_attr k (JStr a') e)
       = shouldSendTrigger f e) /\
  (forall s s' : string,
     case_variant s s' = true -> toLowerCase s' = toLowerCase s) /\
  (forall (f : jsobject) (e : TriggerData),
     (forall k, constrained f k = true -> attr_matches k f e = true) ->
     shouldSendTrigger f e = Ok true).
Proof.
  split; [|split; [|split]].
  - intros f e k s s' Hs Hv.
    assert (Hf : f ≠ ∅) by (intros ->; by rewrite lookup_empty in Hs).
    rewrite (shouldSendTrigger_steps f e Hf).
    rewrite shouldSendTrigger_steps by apply insert_non_empty.
    apply all_steps_ext. intros k'. by apply step_insert_case with (s := s).
  - intros f e k a a' Ha Hv.
    destruct (decide (f = ∅)) as [->|Hf].
    + by rewrite !shouldSendTrigger_empty.
    + rewrite !(shouldSendTrigger_steps f _ Hf).
      apply all_steps_ext. intros k'. by apply step_set_case with (a := a).
  - apply case_variant_lower.
  - intros f e H. apply shouldSendTrigger_true_iff. intros k.
    unfold comparison. destruct (constrained f k) eqn:Hc; [|reflexivity].
    by rewrite H.
Qed.

Lemma C4_witness :
  shouldSendTrigger (<[filter_key AppName := JStr "GITHUB"]> filter_GitHub)
    github_event = shouldSendTrigger filter_GitHub github_event /\
  shouldSendTrigger filter_GitHub
    (set_event_attr AppName (JStr "GitHub") github_event)
    = shouldSendTrigger filter_GitHub github_event /\
  shouldSendTrigger filter_GitHub github_event = Ok true.
Proof.
  destruct C4_case_insensitivity as (Hfilter & Hevent & Hcase & Hmatch).
  split; [|split].
  - apply (Hfilter filter_GitHub github_event AppName "GitHub" "GITHUB").
    + vm_compute. reflexivity.
    + apply (Hcase "GitHub" "GITHUB"). vm_compute. reflexivity.
  - apply (Hevent filter_GitHub github_event AppName "github" "GitHub").
    + vm_compute. reflexivity.
    + apply (Hcase "github" "GitHub"). vm_compute. reflexivity.
  - apply (Hmatch filter_GitHub github_event).
    intros []; vm_compute; intros H; (reflexivity || discriminate H).
Defined.

(** C4 as worded fails. The filter [{appName: "straße"}] lets an event
    of the app "straße" through; with the value in upper case,
    "STRASSE", the same event is rejected, because the lower-case form
    of "STRASSE" is "strasse". *)
Lemma C4_counterexample :
  toUpperCase "straße" = "STRASSE" /\
  constrained filter_strasse AppName = true /\
  shouldSendTrigger filter_strasse strasse_event = Ok true /\
  shouldSendTrigger
    (<[filter_key AppName := JStr (toUpperCase "straße")]> filter_strasse)
    strasse_event = Ok false.
Proof. vm_compute. repeat split. Qed.

(** ** The listener and the subscription *)

(** Unfolds the plumbing of [M] in the goal. *)
Ltac run_M :=
  unfold subscribe, unsubscribe, switch_status, listener, try_catch,
    triggerSubscribe, triggerUnsubscribe, call, bind, emit, lift, ret, throw;
  simpl.

Lemma listener_send (f : jsobject) (fn : Callback) (e : TriggerData)
    (w : World) :
  shouldSendTrigger f e = Ok true ->
  listener f fn e w =
    (cb_body fn e,
     {| listeners := listeners w;
        trace := trace w ++ [Invoke (cb_name fn) e] |}).
Proof. intros H. run_M. rewrite H. reflexivity. Qed.

Lemma listener_skip (f : jsobject) (fn : Callback) (e : TriggerData)
    (w : World) :
  shouldSendTrigger f e = Ok false -> listener f fn e w = (Ok tt, w).
Proof. intros H. run_M. rewrite H. reflexivity. Qed.

(** C5, amended. When the event passes the filter and the callback of
    the subscriber throws, the listener that [subscribe] registers does
    not catch the exception: the call of the listener ends with that very
    exception, nothing is logged, and the registered subscriptions are
    left as they were. *)
Theorem C5_callback_exception_leaves_listener (f : jsobject) (fn : Callback)
    (e : TriggerData) (x : exn) (w : World) :
  shouldSendTrigger f e = Ok true ->
  cb_body fn e = Throw x ->
  listener f fn e w =
    (Throw x,
     {| listeners := listeners w;
        trace := trace w ++ [Invoke (cb_name fn) e] |}).
Proof.
  intros Hsend Hx. rewrite (listener_send f fn e w Hsend), Hx. reflexivity.
Qed.

Lemma C5_witness :
  listener filter_GitHub failing_callback github_event world0 =
    (Throw (Error "subscriber failed"),
     {| listeners := ∅; trace := [Invoke "failing" github_event] |}).
Proof.
  apply (C5_callback_exception_leaves_listener
           filter_GitHub failing_callback github_event
           (Error "subscriber failed") world0).
  - vm_compute. reflexivity.
  - reflexivity.
Defined.

(** C5 as worded fails: the event passes the filter, the callback
    throws, and the listener does not end normally but with the
    exception of the callback. *)
Lemma C5_counterexample :
  shouldSendTrigger filter_GitHub github_event = Ok true /\
  cb_body failing_callback github_event = Throw (Error "subscriber failed") /\
  (listener filter_GitHub failing_callback github_event world0).1
    = Throw (Error "subscriber failed") /\
  (listener filter_GitHub failing_callback github_event world0).1 <> Ok tt.
Proof.
  split; [vm_compute; reflexivity|]. split; [reflexivity|].
  split; [vm_compute; reflexivity|]. vm_compute. discriminate.
Qed.

(** C7. [subscribe] called without a callback fails with the error
    "Function is required for trigger subscription" after the telemetry
    call alone: the client identity is not resolved, the transport is not
    touched, and the registered subscriptions are unchanged. *)
Theorem C7_subscribe_requires_callback (env : Env)
    (filters : option jsobject) (w : World) :
  subscribe env None filters w =
    (Throw (Error "Function is required for trigger subscription"),
     {| listeners := listeners w;
        trace := trace w ++ [Telemetry "subscribe"] |}).
Proof. reflexivity. Qed.

Section OneIdentity.

(** A backend client that resolves its identity. *)
Variable env : Env.
Variable clientId : string.
Hypothesis resolved : backendClient_getClientId env = Ok clientId.

Lemma subscribe_ok (fn : Callback) (filters : option jsobject) (w : World) :
  PusherUtils_getPusherClient env = Ok tt ->
  subscribe env (Some fn) filters w =
    (Ok tt,
     {| listeners :=
          <[clientId := {| l_filters := default ∅ filters; l_fn := fn |}]>
            (listeners w);
        trace := trace w ++ [Telemetry "subscribe"; GetClientId;
                             GetPusherClient;
                             LoggerDebug "Subscribing to triggers"] |}).
Proof.
  intros Hp. run_M. rewrite resolved, Hp. simpl.
  rewrite <- !app_assoc. reflexivity.
Qed.

Lemma unsubscribe_ok (w : World) :
  unsubscribe env w =
    (Ok tt,
     {| listeners := delete clientId (listeners w);
        trace := trace w ++ [GetClientId] |}).
Proof. run_M. rewrite resolved. reflexivity. Qed.

(** C6. A client identity has one slot: after a second [subscribe] for
    the same identity the slot holds the second filter and callback, an
    event that passes only the first filter invokes no callback, and an
    event that passes the second filter invokes the second callback once;
    after [unsubscribe] the slot is empty and no event invokes a
    callback. *)
Theorem C6_last_subscription_wins (fn1 fn2 : Callback) (f1 f2 : jsobject)
    (w : World) :
  PusherUtils_getPusherClient env = Ok tt ->
  let w1 := (subscribe env (Some fn1) (Some f1) w).2 in
  let w2 := (subscribe env (Some fn2) (Some f2) w1).2 in
  let w3 := (unsubscribe env w2).2 in
  (subscribe env (Some fn1) (Some f1) w).1 = Ok tt /\
  (subscribe env (Some fn2) (Some f2) w1).1 = Ok tt /\
  (unsubscribe env w2).1 = Ok tt /\
  listeners w2 !! clientId = Some {| l_filters := f2; l_fn := fn2 |} /\
  (forall e, shouldSendTrigger f1 e = Ok true ->
             shouldSendTrigger f2 e = Ok false ->
             deliver clientId e w2 = (Ok tt, w2)) /\
  (forall e, shouldSendTrigger f2 e = Ok true ->
             invocations (deliver clientId e w2).2
               = (invocations w2 ++ [(cb_name fn2, e)])%list) /\
  listeners w3 !! clientId = None /\
  (forall e, deliver clientId e w3 = (Ok tt, w3)).
Proof.
  intros Hp w1 w2 w3. subst w3 w2 w1.
  rewrite (subscribe_ok fn1 (Some f1) w Hp). simpl.
  rewrite (subscribe_ok fn2 (Some f2) _ Hp). simpl.
  rewrite unsubscribe_ok. simpl.
  repeat split.
  - apply lookup_insert_eq.
  - intros e _ H2. unfold deliver. simpl. rewrite lookup_insert_eq.
    by apply listener_skip.
  - intros e H2. unfold deliver. simpl. rewrite lookup_insert_eq.
    unfold run_listener. simpl. rewrite (listener_send _ _ _ _ H2).
    unfold invocations. simpl. rewrite omap_app. reflexivity.
  - apply lookup_delete_eq.
  - intros e. unfold deliver. simpl. rewrite lookup_delete_eq. reflexivity.
Qed.

(** C8. When the transport cannot be initialised, the error of
    [PusherUtils.getPusherClient] is what the caller of [subscribe]
    receives, and no listener is registered. *)
Theorem C8_transport_failure_propagates (fn : Callback)
    (filters : option jsobject) (x : exn) (w : World) :
  PusherUtils_getPusherClient env = Throw x ->
  subscribe env (Some fn) filters w =
    (Throw x,
     {| listeners := listeners w;
        trace := trace w ++ [Telemetry "subscribe"; GetClientId;
                             GetPusherClient] |}).
Proof.
  intros Hp. run_M. rewrite resolved, Hp. simpl.
  rewrite <- !app_assoc. reflexivity.
Qed.

End OneIdentity.

Lemma C6_witness :
  deliver "client-1" github_event two_subscriptions
    = (Ok tt, two_subscriptions).
Proof.
  apply (C6_last_subscription_wins sample_env "client-1" eq_refl
           failing_callback quiet_callback
           filter_GitHub filter_app_and_trigger world0);
    vm_compute; reflexivity.
Defined.

Lemma C8_witness :
  subscribe env_no_transport (Some quiet_callback) (Some filter_GitHub) world0 =
    (Throw (Foreign "TransportUnavailable" "missing credentials"),
     {| listeners := ∅;
        trace := [Telemetry "subscribe"; GetClientId; GetPusherClient] |}).
Proof.
  apply (C8_transport_failure_propagates env_no_transport "client-1" eq_refl
           quiet_callback (Some filter_GitHub)
           (Foreign "TransportUnavailable" "missing credentials") world0).
  reflexivity.
Defined.

(** ** [enable] and [disable] *)

Lemma switch_status_valid (env : Env) (method : string) (enabled : bool)
    (data : jsobject) (p : TTriggerInstanceItems) (w : World) :
  ZTriggerInstanceItems_parse env data = Ok p ->
  switch_status env method enabled data w =
    (match apiClient_switchTriggerInstanceStatus env
             (triggerInstanceId p) enabled with
     | Ok _ => Ok true
     | Throw x => Throw (rethrown env x)
     end,
     {| listeners := listeners w;
        trace := trace w ++ [Telemetry method;
                             SwitchTriggerInstanceStatus
                               (triggerInstanceId p) enabled] |}).
Proof.
  intros Hp. run_M. rewrite Hp. simpl. rewrite <- app_assoc. simpl.
  destruct (apiClient_switchTriggerInstanceStatus env _ _) as [u|x];
    [reflexivity|].
  unfold throw_handled, rethrown, throw.
  destruct (CEG_handleAllError env x); reflexivity.
Qed.

(** C9. For an argument that the schema accepts, [enable] and [disable]
    each send one status-switch request for the parsed instance
    identifier, with [enabled] true for [enable] and false for [disable];
    each returns true when the request succeeds, and when the request
    fails each throws (what [CEG.handleAllError] makes of the failure)
    instead of returning false. *)
Theorem C9_enable_disable_switch_once (env : Env) (data : jsobject)
    (p : TTriggerInstanceItems) (w : World) :
  ZTriggerInstanceItems_parse env data = Ok p ->
  let remote := apiClient_switchTriggerInstanceStatus env
                  (triggerInstanceId p) in
  let outcome (r : result unit) : result bool :=
    match r with
    | Ok _ => Ok true
    | Throw x => Throw (rethrown env x)
    end in
  enable env data w =
    (outcome (remote true),
     {| listeners := listeners w;
        trace := trace w ++ [Telemetry "enable";
                             SwitchTriggerInstanceStatus
                               (triggerInstanceId p) true] |}) /\
  disable env data w =
    (outcome (remote false),
     {| listeners := listeners w;
        trace := trace w ++ [Telemetry "disable";
                             SwitchTriggerInstanceStatus
                               (triggerInstanceId p) false] |}).
Proof.
  intros Hp remote outcome. split.
  - apply (switch_status_valid env "enable" true data p w Hp).
  - apply (switch_status_valid env "disable" false data p w Hp).
Qed.

Lemma C9_witness :
  enable sample_env sample_instance world0 =
    (Ok true,
     {| listeners := ∅;
        trace := [Telemetry "enable";
                  SwitchTriggerInstanceStatus "ti-1" true] |}) /\
  disable sample_env sample_instance world0 =
    (Ok true,
     {| listeners := ∅;
        trace := [Telemetry "disable";
                  SwitchTriggerInstanceStatus "ti-1" false] |}).
Proof.
  apply (C9_enable_disable_switch_once sample_env sample_instance
           {| triggerInstanceId := "ti-1" |} world0).
  vm_compute. reflexivity.
Defined.

(** ** Scenarios *)

(** Scenario A: filter [{appName: "GitHub"}], event from "github". *)
Example scenario_A_case_insensitive_match :
  shouldSendTrigger filter_GitHub github_event = Ok true /\
  invocations (listener filter_GitHub quiet_callback github_event world0).2
    = [("quiet", github_event)].
Proof. split; vm_compute; reflexivity. Qed.

(** Scenario B: filter [{triggerId: "xyz"}], event with [metadata.id]
    "abc". *)
Example scenario_B_trigger_id_mismatch :
  shouldSendTrigger {[ "triggerId" := JStr "xyz" ]} github_event = Ok false /\
  invocations
    (listener {[ "triggerId" := JStr "xyz" ]} quiet_callback github_event
       world0).2 = [].
Proof. split; vm_compute; reflexivity. Qed.

(** Letters outside A-Z are folded as well: "Ä" matches "ä", and a
    capital sigma at the end of a word matches the final sigma. *)
Example scenario_unicode_case :
  shouldSendTrigger {[ "appName" := JStr "Ä" ]}
    {| appName := JStr "ä"; metadata := None |} = Ok true /\
  shouldSendTrigger {[ "appName" := JStr "ΟΔΟΣ" ]}
    {| appName := JStr "οδος"; metadata := None |} = Ok true /\
  toLowerCase "İ" = "i̇" /\
  toUpperCase "ı" = "I" /\ toLowerCase "I" = "i".
Proof. vm_compute. repeat split. Qed.

(** ** The filter evaluator, further *)

(** The shortcut for a filter without keys changes nothing: the six
    conjuncts alone give the same answer. *)
Lemma shouldSendTrigger_all_steps (f : jsobject) (e : TriggerData) :
  shouldSendTrigger f e = all_steps criteria f e.
Proof.
  destruct (decide (f = ∅)) as [->|Hf].
  - rewrite shouldSendTrigger_empty. reflexivity.
  - by apply shouldSendTrigger_steps.
Qed.

Lemma step_constraint_of (k : criterion) (f : jsobject) (e : TriggerData) :
  step k f e =
    unset_or (constraint_of f k)
      (lower_eq (event_attr k e) (constraint_of f k)).
Proof.
  unfold step, constraint_of, constrained, unset_or.
  destruct (truthy (get f (filter_key k))) eqn:Ht; simpl.
  - rewrite Ht. reflexivity.
  - reflexivity.
Qed.

(** X1. On an event that carries all six attributes as strings the
    evaluator never throws: for every filter it returns the conjunction
    of the six comparisons. *)
Theorem X1_typed_event_never_throws (f : jsobject) (e : TriggerData) :
  well_typed e = true ->
  shouldSendTrigger f e = Ok (forallb (fun k => comparison k f e) criteria).
Proof.
  intros Hwt. rewrite shouldSendTrigger_all_steps.
  apply all_steps_covered.
  unfold well_typed in Hwt. rewrite forallb_forall in Hwt.
  apply forallb_forall. intros k Hk. rewrite (Hwt k Hk).
  by destruct (constrained f k).
Qed.

Lemma X1_witness :
  shouldSendTrigger filter_app_and_entity github_event = Ok true.
Proof.
  apply (X1_typed_event_never_throws filter_app_and_entity github_event).
  vm_compute. reflexivity.
Defined.

Lemma all_steps_first_false (ks1 ks2 : list criterion) (k : criterion)
    (f : jsobject) (e : TriggerData) :
  forallb (fun k' => implb (constrained f k') (attr_present k' e)) ks1 = true ->
  step k f e = Ok false ->
  all_steps (ks1 ++ k :: ks2) f e = Ok false.
Proof.
  intros Hcov Hk. induction ks1 as [|k1 ks1 IH]; simpl.
  - rewrite Hk. reflexivity.
  - simpl in Hcov. apply andb_prop in Hcov as [H1 Hrest].
    rewrite (step_covered _ _ _ H1). simpl.
    destruct (comparison k1 f e); [by apply IH|reflexivity].
Qed.

Lemma criteria_split (k : criterion) :
  exists ks1 ks2,
    criteria = (ks1 ++ k :: ks2)%list /\
    forall k', In k' ks1 -> rank k' < rank k.
Proof.
  destruct k.
  - exists [], [TriggerId; ConnectionId; TriggerName; EntityId; IntegrationId].
    split; [reflexivity|]. intros k' [].
  - exists [AppName], [ConnectionId; TriggerName; EntityId; IntegrationId].
    split; [reflexivity|]. simpl. intros k' H. intuition subst; simpl; lia.
  - exists [AppName; TriggerId], [TriggerName; EntityId; IntegrationId].
    split; [reflexivity|]. simpl. intros k' H. intuition subst; simpl; lia.
  - exists [AppName; TriggerId; ConnectionId], [EntityId; IntegrationId].
    split; [reflexivity|]. simpl. intros k' H. intuition subst; simpl; lia.
  - exists [AppName; TriggerId; ConnectionId; TriggerName], [IntegrationId].
    split; [reflexivity|]. simpl. intros k' H. intuition subst; simpl; lia.
  - exists [AppName; TriggerId; ConnectionId; TriggerName; EntityId], [].
    split; [reflexivity|]. simpl. intros k' H. intuition subst; simpl; lia.
Qed.

(** X2. The fields are checked in the order appName, triggerId,
    connectionId, triggerName, entityId, integrationId, and checking
    stops at the first mismatch: when a constrained field differs from
    its attribute and the event carries the attributes of the constrained
    fields before it, the result is false, whatever is missing further
    on. *)
Theorem X2_first_mismatch_decides (f : jsobject) (e : TriggerData)
    (k : criterion) :
  constrained f k = true ->
  attr_present k e = true ->
  attr_matches k f e = false ->
  (forall k', rank k' < rank k ->
              constrained f k' = true -> attr_present k' e = true) ->
  shouldSendTrigger f e = Ok false.
Proof.
  intros Hc Hp Hm Hbefore. rewrite shouldSendTrigger_all_steps.
  destruct (criteria_split k) as (ks1 & ks2 & -> & Hrank).
  apply all_steps_first_false.
  - apply forallb_forall. intros k' Hin.
    destruct (constrained f k') eqn:Hc'; [|reflexivity].
    simpl. apply Hbefore; [by apply Hrank|done].
  - rewrite step_covered by (by rewrite Hc, Hp).
    unfold comparison. by rewrite Hc, Hm.
Qed.

Lemma X2_witness :
  shouldSendTrigger
    (<["triggerId" := JStr "xyz"]> filter_app_and_entity)
    github_event_no_connection = Ok false.
Proof.
  apply (X2_first_mismatch_decides _ github_event_no_connection TriggerId).
  - vm_compute. reflexivity.
  - vm_compute. reflexivity.
  - vm_compute. reflexivity.
  - intros [] Hlt; simpl in Hlt; try lia. intros _. vm_compute. reflexivity.
Defined.

(** X3. The answer depends on the filter only through the non-empty
    strings of its six fields: two filters that demand the same for each
    criterion give the same result on every event, exceptions
    included. *)
Theorem X3_only_the_six_fields_count (f f' : jsobject) (e : TriggerData) :
  (forall k, constraint_of f k = constraint_of f' k) ->
  shouldSendTrigger f e = shouldSendTrigger f' e.
Proof.
  intros H. rewrite !shouldSendTrigger_all_steps.
  apply all_steps_ext. intros k.
  rewrite !step_constraint_of. by rewrite H.
Qed.

Lemma X3_witness :
  shouldSendTrigger
    (<["connectionId" := JStr ""]> filter_GitHub) bare_event
  = shouldSendTrigger filter_GitHub bare_event.
Proof.
  apply (X3_only_the_six_fields_count
           (<["connectionId" := JStr ""]> filter_GitHub) filter_GitHub
           bare_event).
  intros []; vm_compute; reflexivity.
Defined.

(** X4. A key other than the six fields never constrains anything:
    setting it, to any value, leaves the result on every event as it
    was. *)
Theorem X4_other_keys_are_ignored (f : jsobject) (e : TriggerData)
    (key : string) (v : jsval) :
  (forall k, filter_key k <> key) ->
  shouldSendTrigger (<[key := v]> f) e = shouldSendTrigger f e.
Proof.
  intros Hkey. rewrite !shouldSendTrigger_all_steps.
  apply all_steps_ext. intros k. unfold step, get.
  rewrite lookup_insert_ne; [reflexivity|]. intros Heq. by apply (Hkey k).
Qed.

Lemma X4_witness :
  shouldSendTrigger (<["triggerData" := JStr "push"]> ∅) github_event
  = shouldSendTrigger ∅ github_event.
Proof.
  apply (X4_other_keys_are_ignored ∅ github_event "triggerData" (JStr "push")).
  intros []; simpl; discriminate.
Defined.

Lemma comparison_weaken (k : criterion) (f f' : jsobject) (e : TriggerData) :
  f' ⊆ f -> comparison k f e = true -> comparison k f' e = true.
Proof.
  intros Hsub H. unfold comparison, constrained, attr_matches, get in *.
  destruct (f' !! filter_key k) as [v|] eqn:Hv; [|reflexivity].
  by rewrite (lookup_weaken _ _ _ _ Hv Hsub) in H.
Qed.

Lemma passes_weaken (f f' : jsobject) (e : TriggerData) :
  f' ⊆ f ->
  shouldSendTrigger f e = Ok true -> shouldSendTrigger f' e = Ok true.
Proof.
  intros Hsub. rewrite !shouldSendTrigger_true_iff. intros H k.
  by apply comparison_weaken with (f := f).
Qed.

(** X5. Dropping constraints never loses an event: an
    event that passes a filter passes every filter made of some of its
    fields, and an event that a part of a filter rejects does not pass
    the whole. *)
Theorem X5_fewer_constraints_pass_more (f f' : jsobject) (e : TriggerData) :
  f' ⊆ f ->
  (shouldSendTrigger f e = Ok true -> shouldSendTrigger f' e = Ok true) /\
  (shouldSendTrigger f' e = Ok false -> shouldSendTrigger f e <> Ok true).
Proof.
  intros Hsub. split; [by apply passes_weaken|].
  intros Hfalse Htrue.
  rewrite (passes_weaken f f' e Hsub Htrue) in Hfalse. discriminate.
Qed.

Lemma X5_witness :
  shouldSendTrigger filter_entity github_event = Ok true.
Proof.
  apply (X5_fewer_constraints_pass_more
           filter_app_and_entity filter_entity github_event).
  - apply map_subseteq_spec. intros key v Hv.
    destruct (decide (key = "entityId")) as [->|Hne].
    + vm_compute in Hv. vm_compute. exact Hv.
    + unfold filter_entity in Hv. rewrite lookup_singleton_ne in Hv by done.
      discriminate.
  - vm_compute. reflexivity.
Defined.

Lemma get_union (f1 f2 : jsobject) (key : string) :
  get (f1 ∪ f2) key = match f1 !! key with
                      | Some v => v
                      | None => get f2 key
                      end.
Proof.
  unfold get. rewrite lookup_union.
  destruct (f1 !! key), (f2 !! key); reflexivity.
Qed.

(** X6. Two filters over different keys combine as a conjunction: an
    event passes their union exactly when it passes both. *)
Theorem X6_union_of_filters_is_conjunction (f1 f2 : jsobject)
    (e : TriggerData) :
  f1 ##ₘ f2 ->
  (shouldSendTrigger (f1 ∪ f2) e = Ok true <->
   shouldSendTrigger f1 e = Ok true /\ shouldSendTrigger f2 e = Ok true).
Proof.
  intros Hdisj. split.
  - intros H. split.
    + apply (passes_weaken (f1 ∪ f2) f1 e);
        [apply map_union_subseteq_l|done].
    + apply (passes_weaken (f1 ∪ f2) f2 e);
        [by apply map_union_subseteq_r|done].
  - rewrite !shouldSendTrigger_true_iff. intros [H1 H2] k.
    specialize (H1 k). specialize (H2 k).
    unfold comparison, constrained, attr_matches in *.
    rewrite get_union.
    unfold get in H1. destruct (f1 !! filter_key k); [exact H1|exact H2].
Qed.

Lemma X6_witness :
  shouldSendTrigger (filter_GitHub ∪ filter_entity) github_event = Ok true.
Proof.
  apply (X6_union_of_filters_is_conjunction
           filter_GitHub filter_entity github_event).
  - apply map_disjoint_spec. intros key v1 v2 H1 H2.
    unfold filter_GitHub in H1. unfold filter_entity in H2.
    apply lookup_singleton_Some in H1 as [<- _].
    rewrite lookup_singleton_ne in H2 by done. discriminate.
  - split; vm_compute; reflexivity.
Defined.

(** ** The listener and [subscribe], further *)

Lemma invocations_app (w : World) (evs : list effect) :
  invocations {| listeners := listeners w; trace := trace w ++ evs |}
  = (invocations w
     ++ omap (fun ev => match ev with
                        | Invoke cb data => Some (cb, data)
                        | _ => None
                        end) evs)%list.
Proof. unfold invocations. simpl. apply omap_app. Qed.

(** X7. For each event it is handed, the listener calls the callback at
    most once, and only when the filter returns true; when the filter
    throws, the exception leaves the listener and the callback is not
    called. The registered subscriptions are never touched. *)
Theorem X7_listener_invokes_only_on_pass (f : jsobject) (fn : Callback)
    (e : TriggerData) (w : World) :
  invocations (listener f fn e w).2
    = (invocations w ++ match shouldSendTrigger f e with
                        | Ok true => [(cb_name fn, e)]
                        | _ => []
                        end)%list /\
  listeners (listener f fn e w).2 = listeners w /\
  (forall x, shouldSendTrigger f e = Throw x ->
             listener f fn e w = (Throw x, w)).
Proof.
  destruct (shouldSendTrigger f e) as [[]|x] eqn:H.
  - rewrite (listener_send f fn e w H). simpl.
    split; [apply (invocations_app w [Invoke (cb_name fn) e])|].
    split; [reflexivity|discriminate].
  - rewrite (listener_skip f fn e w H). simpl.
    rewrite app_nil_r. split; [reflexivity|]. split; [reflexivity|discriminate].
  - assert (Hl : listener f fn e w = (Throw x, w))
      by (run_M; rewrite H; reflexivity).
    rewrite Hl. simpl. rewrite app_nil_r.
    split; [reflexivity|]. split; [reflexivity|]. intros y [= <-]. reflexivity.
Qed.

(** X8. When the client identity cannot be resolved, [subscribe] and
    [unsubscribe] fail with the error of [getClientId]; [subscribe] has
    not touched the transport by then, and neither changes the
    registered subscriptions. *)
Theorem X8_identity_failure_propagates (env : Env) (fn : Callback)
    (filters : option jsobject) (x : exn) (w : World) :
  backendClient_getClientId env = Throw x ->
  subscribe env (Some fn) filters w =
    (Throw x,
     {| listeners := listeners w;
        trace := trace w ++ [Telemetry "subscribe"; GetClientId] |}) /\
  unsubscribe env w =
    (Throw x,
     {| listeners := listeners w; trace := trace w ++ [GetClientId] |}).
Proof.
  intros Hid. split; run_M; rewrite Hid; simpl.
  - rewrite <- app_assoc. reflexivity.
  - reflexivity.
Qed.

Lemma X8_witness :
  unsubscribe env_no_identity world0 =
    (Throw (Foreign "HTTP" "401"),
     {| listeners := ∅; trace := [GetClientId] |}).
Proof.
  apply (X8_identity_failure_propagates env_no_identity quiet_callback None
           (Foreign "HTTP" "401") world0).
  reflexivity.
Defined.

(** ** [enable] and [disable], further *)

Lemma switch_status_invalid (env : Env) (method : string) (enabled : bool)
    (data : jsobject) (x : exn) (w : World) :
  ZTriggerInstanceItems_parse env data = Throw x ->
  switch_status env method enabled data w =
    (Throw (rethrown env x),
     {| listeners := listeners w; trace := trace w ++ [Telemetry method] |}).
Proof.
  intros Hp. run_M. rewrite Hp. simpl.
  unfold throw_handled, rethrown, throw.
  destruct (CEG_handleAllError env x); reflexivity.
Qed.

(** X9. When the schema rejects the argument, [enable] and [disable]
    send no request: each throws what [CEG.handleAllError] makes of the
    validation error, with the telemetry call as the only effect. *)
Theorem X9_invalid_instance_sends_nothing (env : Env) (data : jsobject)
    (x : exn) (w : World) :
  ZTriggerInstanceItems_parse env data = Throw x ->
  enable env data w =
    (Throw (rethrown env x),
     {| listeners := listeners w;
        trace := trace w ++ [Telemetry "enable"] |}) /\
  disable env data w =
    (Throw (rethrown env x),
     {| listeners := listeners w;
        trace := trace w ++ [Telemetry "disable"] |}).
Proof.
  intros Hp. split; by apply switch_status_invalid.
Qed.

Lemma X9_witness :
  enable sample_env ∅ world0 =
    (Throw (Foreign "ZodError" "triggerInstanceId"),
     {| listeners := ∅; trace := [Telemetry "enable"] |}).
Proof.
  apply (X9_invalid_instance_sends_nothing sample_env ∅
           (Foreign "ZodError" "triggerInstanceId") world0).
  vm_compute. reflexivity.
Defined.

(** X10. Whatever the argument and whatever the collaborators do,
    [enable] and [disable] never return false and never let an error
    through as it is: the outcome is true or the throw of what
    [CEG.handleAllError] made of some error; at most one request is sent;
    and the registered subscriptions are unchanged. *)
Theorem X10_enable_disable_outcomes (env : Env) (data : jsobject)
    (w : World) :
  let good (out : result bool * World) :=
    (out.1 = Ok true \/ exists x, out.1 = Throw (rethrown env x)) /\
    (exists evs, trace out.2 = (trace w ++ evs)%list /\
                 length (List.filter is_switch evs) <= 1) /\
    listeners out.2 = listeners w in
  good (enable env data w) /\ good (disable env data w).
Proof.
  assert (H : forall method enabled,
    let out := switch_status env method enabled data w in
    (out.1 = Ok true \/ exists x, out.1 = Throw (rethrown env x)) /\
    (exists evs, trace out.2 = (trace w ++ evs)%list /\
                 length (List.filter is_switch evs) <= 1) /\
    listeners out.2 = listeners w).
  { intros method enabled.
    destruct (ZTriggerInstanceItems_parse env data) as [p|x] eqn:Hp.
    - rewrite (switch_status_valid env method enabled data p w Hp). simpl.
      split; [|split; [|reflexivity]].
      + destruct (apiClient_switchTriggerInstanceStatus env _ _); eauto.
      + eexists. split; [reflexivity|]. simpl. lia.
    - rewrite (switch_status_invalid env method enabled data x w Hp). simpl.
      split; [eauto|]. split; [|reflexivity].
      eexists. split; [reflexivity|]. simpl. lia. }
  intros good. split; apply H.
Qed.

(** ** [list]: joining the identifiers *)

Lemma string_app_assoc (a b c : string) : (a ++ b) ++ c = a ++ b ++ c.
Proof.
  induction a as [|x a IH]; [reflexivity|].
  change (String x ((a ++ b) ++ c) = String x (a ++ b ++ c)). by f_equal.
Qed.

Lemma join_cons (sep x : string) (rest : list string) :
  rest <> [] -> join sep (x :: rest) = x ++ sep ++ join sep rest.
Proof. destruct rest; [congruence|reflexivity]. Qed.

Lemma split_on_free (c : ascii) (x : string) :
  free_of c x = true -> split_on c x = [x].
Proof.
  induction x as [|a t IH]; simpl; [reflexivity|].
  intros H. apply andb_prop in H as [Ha Ht].
  apply negb_true_iff in Ha. rewrite Ha, (IH Ht). reflexivity.
Qed.

Lemma split_on_app (c : ascii) (x s : string) :
  free_of c x = true ->
  split_on c (x ++ String c s) = x :: split_on c s.
Proof.
  induction x as [|a t IH]; simpl.
  - intros _. rewrite Ascii.eqb_refl. reflexivity.
  - intros H. apply andb_prop in H as [Ha Ht].
    apply negb_true_iff in Ha. rewrite Ha, (IH Ht). reflexivity.
Qed.

(** Splitting at the separator undoes the joining of a non-empty list of
    strings that hold no separator. *)
Lemma split_join (c : ascii) (l : list string) :
  l <> [] -> forallb (free_of c) l = true ->
  split_on c (join (String c EmptyString) l) = l.
Proof.
  induction l as [|x rest IH]; [congruence|].
  intros _ H. simpl in H. apply andb_prop in H as [Hx Hrest].
  destruct rest as [|y r].
  - simpl. by apply split_on_free.
  - rewrite join_cons by discriminate.
    change (String c EmptyString ++ join (String c EmptyString) (y :: r))
      with (String c (join (String c EmptyString) (y :: r))).
    rewrite (split_on_app c x _ Hx). f_equal.
    apply IH; [discriminate|exact Hrest].
Qed.

(** X11. What [list] sends for a multi-valued filter determines the
    filter, as long as each filter given is a non-empty array of
    identifiers without a comma: two such filters (or absent ones) that
    are sent as the same query value are equal. *)
Theorem X11_joined_filter_is_faithful (a b : option (list string)) :
  comma_safe a = true -> comma_safe b = true ->
  optional_join a = optional_join b -> a = b.
Proof.
  destruct a as [la|], b as [lb|]; simpl; try discriminate; [|reflexivity].
  intros Ha Hb [= Hjoin]. f_equal.
  assert (Hla : la <> [] /\ forallb (free_of ",") la = true)
    by (destruct la; [discriminate|split; [discriminate|exact Ha]]).
  assert (Hlb : lb <> [] /\ forallb (free_of ",") lb = true)
    by (destruct lb; [discriminate|split; [discriminate|exact Hb]]).
  destruct Hla as [Hla1 Hla2], Hlb as [Hlb1 Hlb2].
  rewrite <- (split_join "," la Hla1 Hla2), <- (split_join "," lb Hlb1 Hlb2).
  by rewrite Hjoin.
Qed.

Lemma X11_witness :
  Some ["github"; "slack"] = Some ["github"; "slack"].
Proof.
  apply (X11_joined_filter_is_faithful
           (Some ["github"; "slack"]) (Some ["github"; "slack"]));
    vm_compute; reflexivity.
Defined.

(** X12. Outside that range the joining loses information: an
    identifier with a comma in it is sent exactly as the two identifiers
    around the comma would be, and an empty array is sent as the empty
    string, like the array of one empty identifier. *)
Theorem X12_joined_filter_collisions :
  (forall (l1 l2 : list string) (a b : string),
     optional_join (Some (l1 ++ (a ++ "," ++ b)%string :: l2)%list)
     = optional_join (Some (l1 ++ a :: b :: l2)%list)) /\
  optional_join (Some []) = optional_join (Some [""]).
Proof.
  split; [|reflexivity].
  intros l1 l2 a b. unfold optional_join. f_equal.
  induction l1 as [|x l1 IH].
  - simpl app. rewrite (join_cons "," a (b :: l2)) by discriminate.
    destruct l2 as [|y r].
    + reflexivity.
    + rewrite !join_cons by discriminate. by rewrite !string_app_assoc.
  - rewrite <- !app_comm_cons.
    rewrite !join_cons by (destruct l1; discriminate).
    by rewrite IH.
Qed.

(** ** [list], [setup] and [delete] *)

Section FacadeProperties.

Context {Descriptor Config : Type}.
Variable env : Env.
Variable api : Api Descriptor Config.

Lemma handled_in_session (x : exn) (A : Type) (s : Session Config) :
  s_world (@throw_handled A env x) s = (Throw (rethrown env x), s).
Proof.
  unfold s_world, throw_handled, rethrown, throw.
  destruct (CEG_handleAllError env x); destruct s; reflexivity.
Qed.

Lemma list_valid (data : option TTriggerListParam)
    (parsed : TTriggerListParam) (s : Session Config) :
  ZTriggerQuery_parse api (default no_list_param data) = Ok parsed ->
  list_ env api data s =
    (match apiClient_listTriggers api (list_query parsed) with
     | Ok response => Ok (default [] response)
     | Throw x => Throw (rethrown env x)
     end,
     sent "list" (ListTriggers (list_query parsed)) s).
Proof.
  intros Hp. unfold list_, s_try_catch, s_bind at 1.
  unfold s_world at 1, emit. simpl.
  unfold s_bind, s_lift, s_send, s_ret. simpl. rewrite Hp.
  destruct (apiClient_listTriggers api (list_query parsed)) as [r|x];
    [reflexivity|].
  apply handled_in_session.
Qed.

Lemma list_invalid (data : option TTriggerListParam) (x : exn)
    (s : Session Config) :
  ZTriggerQuery_parse api (default no_list_param data) = Throw x ->
  list_ env api data s = (Throw (rethrown env x), told "list" s).
Proof.
  intros Hp. unfold list_, s_try_catch, s_bind at 1.
  unfold s_world at 1, emit. simpl.
  unfold s_bind, s_lift. simpl. rewrite Hp.
  apply handled_in_session.
Qed.

Lemma setup_valid (params parsed : TTriggerSetupParam Config)
    (s : Session Config) :
  ZTriggerSetupParam_parse api params = Ok parsed ->
  setup env api params s =
    (match apiClient_enableTrigger api (sp_connectedAccountId parsed)
             (sp_triggerName parsed) (sp_config parsed) with
     | Ok response => Ok response
     | Throw x => Throw (rethrown env x)
     end,
     sent "setup"
       (EnableTrigger (sp_connectedAccountId parsed) (sp_triggerName parsed)
          (sp_config parsed)) s).
Proof.
  intros Hp. unfold setup, s_try_catch, s_bind at 1.
  unfold s_world at 1, emit. simpl.
  unfold s_bind, s_lift, s_send, s_ret. simpl. rewrite Hp.
  destruct (apiClient_enableTrigger api _ _ _) as [r|x]; [reflexivity|].
  apply handled_in_session.
Qed.

Lemma setup_invalid (params : TTriggerSetupParam Config) (x : exn)
    (s : Session Config) :
  ZTriggerSetupParam_parse api params = Throw x ->
  setup env api params s = (Throw (rethrown env x), told "setup" s).
Proof.
  intros Hp. unfold setup, s_try_catch, s_bind at 1.
  unfold s_world at 1, emit. simpl.
  unfold s_bind, s_lift. simpl. rewrite Hp.
  apply handled_in_session.
Qed.

Lemma delete_valid (data : jsobject) (parsed : TTriggerInstanceItems)
    (s : Session Config) :
  ZTriggerInstanceItems_parse env data = Ok parsed ->
  delete_ env api data s =
    (match apiClient_deleteTrigger api (triggerInstanceId parsed) with
     | Ok _ => Ok {| status := "success" |}
     | Throw x => Throw (rethrown env x)
     end,
     sent "delete" (DeleteTrigger (triggerInstanceId parsed)) s).
Proof.
  intros Hp. unfold delete_, s_try_catch, s_bind at 1.
  unfold s_world at 1, emit. simpl.
  unfold s_bind, s_lift, s_send, s_ret. simpl. rewrite Hp.
  destruct (apiClient_deleteTrigger api _) as [r|x]; [reflexivity|].
  apply handled_in_session.
Qed.

Lemma delete_invalid (data : jsobject) (x : exn) (s : Session Config) :
  ZTriggerInstanceItems_parse env data = Throw x ->
  delete_ env api data s = (Throw (rethrown env x), told "delete" s).
Proof.
  intros Hp. unfold delete_, s_try_catch, s_bind at 1.
  unfold s_world at 1, emit. simpl.
  unfold s_bind, s_lift. simpl. rewrite Hp.
  apply handled_in_session.
Qed.

End FacadeProperties.

(** X13. For a query that the schema accepts, [list] sends one
    [listTriggers] request in which every multi-valued filter given is
    joined with commas and every filter left out stays undefined; it
    returns the data of the response, or the empty list when the response
    has none, and throws what [CEG.handleAllError] makes of a failed
    request. *)
Theorem X13_list_sends_joined_query {Descriptor Config : Type} (env : Env)
    (api : Api Descriptor Config) (data : option TTriggerListParam)
    (parsed : TTriggerListParam) (s : Session Config) :
  ZTriggerQuery_parse api (default no_list_param data) = Ok parsed ->
  let query :=
    {| q_appNames := optional_join (appNames parsed);
       q_triggerIds := optional_join (triggerIds parsed);
       q_connectedAccountIds := optional_join (connectedAccountIds parsed);
       q_integrationIds := optional_join (integrationIds parsed);
       q_showEnabledOnly := showEnabledOnly parsed |} in
  list_ env api data s =
    (match apiClient_listTriggers api query with
     | Ok (Some descriptors) => Ok descriptors
     | Ok None => Ok []
     | Throw x => Throw (rethrown env x)
     end,
     sent "list" (ListTriggers query) s).
Proof.
  intros Hp query. rewrite (list_valid env api data parsed s Hp).
  fold query. change (list_query parsed) with query.
  destruct (apiClient_listTriggers api query) as [[d|]|x]; reflexivity.
Qed.

Lemma X13_witness :
  list_ sample_env sample_api (Some sample_list_param) session0 =
    (Ok [],
     {| world := {| listeners := ∅; trace := [Telemetry "list"] |};
        requests :=
          [ListTriggers
             {| q_appNames := JStr "github,slack";
                q_triggerIds := JUndefined;
                q_connectedAccountIds := JUndefined;
                q_integrationIds := JUndefined;
                q_showEnabledOnly := Some true |}] |}).
Proof.
  apply (X13_list_sends_joined_query sample_env sample_api
           (Some sample_list_param) sample_list_param session0).
  reflexivity.
Defined.

(** X14. When the schema rejects the argument, [list], [setup] and
    [delete] send no request at all: each throws what
    [CEG.handleAllError] makes of the validation error, after the
    telemetry call alone. *)
Theorem X14_invalid_argument_sends_nothing {Descriptor Config : Type}
    (env : Env) (api : Api Descriptor Config) (s : Session Config)
    (x : exn) :
  (forall data,
     ZTriggerQuery_parse api (default no_list_param data) = Throw x ->
     list_ env api data s = (Throw (rethrown env x), told "list" s)) /\
  (forall params,
     ZTriggerSetupParam_parse api params = Throw x ->
     setup env api params s = (Throw (rethrown env x), told "setup" s)) /\
  (forall data,
     ZTriggerInstanceItems_parse env data = Throw x ->
     delete_ env api data s = (Throw (rethrown env x), told "delete" s)).
Proof.
  split; [|split]; intros arg Hp.
  - by apply list_invalid.
  - by apply setup_invalid.
  - by apply delete_invalid.
Qed.

Lemma X14_witness :
  requests
    (setup sample_env sample_api
       {| sp_connectedAccountId := ""; sp_triggerName := "GITHUB_COMMIT_EVENT";
          sp_config := ∅ |} session0).2 = [].
Proof.
  rewrite (proj1 (proj2 (X14_invalid_argument_sends_nothing
                           sample_env sample_api session0
                           (Foreign "ZodError" "connectedAccountId")))
             {| sp_connectedAccountId := "";
                sp_triggerName := "GITHUB_COMMIT_EVENT";
                sp_config := ∅ |} eq_refl).
  reflexivity.
Defined.

(** X15. For parameters that the schema accepts, [setup] sends one
    [enableTrigger] request built from the parsed connected account,
    trigger name and configuration, and returns the data of the response
    as it is; a failed request is thrown, through [CEG.handleAllError],
    never turned into a result. *)
Theorem X15_setup_sends_parsed_parameters {Descriptor Config : Type}
    (env : Env) (api : Api Descriptor Config)
    (params parsed : TTriggerSetupParam Config) (s : Session Config) :
  ZTriggerSetupParam_parse api params = Ok parsed ->
  setup env api params s =
    (match apiClient_enableTrigger api (sp_connectedAccountId parsed)
             (sp_triggerName parsed) (sp_config parsed) with
     | Ok response => Ok response
     | Throw x => Throw (rethrown env x)
     end,
     sent "setup"
       (EnableTrigger (sp_connectedAccountId parsed) (sp_triggerName parsed)
          (sp_config parsed)) s).
Proof. apply setup_valid. Qed.

Lemma X15_witness :
  setup sample_env sample_api sample_setup_param session0 =
    (Ok (Some {| setup_status := "success"; setup_triggerId := "ti-1" |}),
     {| world := {| listeners := ∅; trace := [Telemetry "setup"] |};
        requests := [EnableTrigger "ca-1" "GITHUB_COMMIT_EVENT" ∅] |}).
Proof.
  apply (X15_setup_sends_parsed_parameters sample_env sample_api
           sample_setup_param sample_setup_param session0).
  reflexivity.
Defined.

(** X16. For an argument that the schema accepts, [delete] sends one
    [deleteTrigger] request for the parsed instance identifier and, when
    the request succeeds, returns the status "success" whatever the
    response holds; a failed request is thrown, through
    [CEG.handleAllError], and no status is returned. *)
Theorem X16_delete_reports_success {Descriptor Config : Type} (env : Env)
    (api : Api Descriptor Config) (data : jsobject)
    (parsed : TTriggerInstanceItems) (s : Session Config) :
  ZTriggerInstanceItems_parse env data = Ok parsed ->
  delete_ env api data s =
    (match apiClient_deleteTrigger api (triggerInstanceId parsed) with
     | Ok _ => Ok {| status := "success" |}
     | Throw x => Throw (rethrown env x)
     end,
     sent "delete" (DeleteTrigger (triggerInstanceId parsed)) s).
Proof. apply delete_valid. Qed.

Lemma X16_witness :
  delete_ sample_env sample_api sample_instance session0 =
    (Ok {| status := "success" |},
     {| world := {| listeners := ∅; trace := [Telemetry "delete"] |};
        requests := [DeleteTrigger "ti-1"] |}).
Proof.
  apply (X16_delete_reports_success sample_env sample_api sample_instance
           {| triggerInstanceId := "ti-1" |} session0).
  vm_compute. reflexivity.
Defined.

(** X17. Whatever the argument and whatever the collaborators do, a call
    of [list], [setup] or [delete] adds at most one request to those
    sent, leaves the registered subscriptions as they are, and lets no
    error through as it is: what it throws is what [CEG.handleAllError]
    made of some error. *)
Theorem X17_requests_and_errors_of_the_calls {Descriptor Config : Type}
    (env : Env) (api : Api Descriptor Config) (s : Session Config) :
  let kept {A} (out : result A * Session Config) :=
    (exists qs, requests out.2 = (requests s ++ qs)%list /\ length qs <= 1) /\
    listeners (world out.2) = listeners (world s) /\
    (forall y, out.1 = Throw y -> exists x, y = rethrown env x) in
  (forall data, kept (list_ env api data s)) /\
  (forall params, kept (setup env api params s)) /\
  (forall data, kept (delete_ env api data s)).
Proof.
  intros kept. split; [|split].
  - intros data.
    destruct (ZTriggerQuery_parse api (default no_list_param data))
      as [p|x] eqn:Hp.
    + rewrite (list_valid env api data p s Hp). unfold kept. simpl.
      split; [exists [ListTriggers (list_query p)]; split; [done|simpl; lia]|].
      split; [reflexivity|].
      intros y. destruct (apiClient_listTriggers api _); intros [= <-]; eauto.
    + rewrite (list_invalid env api data x s Hp). unfold kept. simpl.
      split; [exists []; split; [by rewrite app_nil_r|simpl; lia]|].
      split; [reflexivity|]. intros y [= <-]; eauto.
  - intros params.
    destruct (ZTriggerSetupParam_parse api params) as [p|x] eqn:Hp.
    + rewrite (setup_valid env api params p s Hp). unfold kept. simpl.
      split; [eexists [_]; split; [done|simpl; lia]|].
      split; [reflexivity|].
      intros y. destruct (apiClient_enableTrigger api _ _ _);
        intros [= <-]; eauto.
    + rewrite (setup_invalid env api params x s Hp). unfold kept. simpl.
      split; [exists []; split; [by rewrite app_nil_r|simpl; lia]|].
      split; [reflexivity|]. intros y [= <-]; eauto.
  - intros data.
    destruct (ZTriggerInstanceItems_parse env data) as [p|x] eqn:Hp.
    + rewrite (delete_valid env api data p s Hp). unfold kept. simpl.
      split; [eexists [_]; split; [done|simpl; lia]|].
      split; [reflexivity|].
      intros y. destruct (apiClient_deleteTrigger api _);
        intros [= <-]; eauto.
    + rewrite (delete_invalid env api data x s Hp). unfold kept. simpl.
      split; [exists []; split; [by rewrite app_nil_r|simpl; lia]|].
      split; [reflexivity|]. intros y [= <-]; eauto.
Qed.
